(** * Elevation acquisition and caching pipeline of the ski terrain renderer

    A shallow embedding of [src/mcp_client.js] (class [MCPElevationClient])
    and [src/js/topography.js] (class [TopographyDataLoader]).

    - JavaScript numbers are IEEE 754 binary64 values: Rocq's primitive
      floats, so [0/0] is [NaN] and comparisons with [NaN] are false.
    - A [Float32Array] is the list of the numbers written into it, in index
      order.  The narrowing of each stored number to single precision is not
      modelled: it is monotone and fixes [0], [0.5], [1] and [NaN], which is
      all the statements below depend on.
    - Plain objects are association lists from property names to values, so
      that a property read under a name that was never written yields
      [undefined], as in the source.
    - [resolution] and [areaSize] are integer-valued numbers ([Z]); the
      resort key is a string.
    - [Math.sin], [Math.cos], [Math.random], [Date.now] and the HTTP server
      are the environment of a call.  An [await] is a sequence point: the
      poll loop that runs beside a fetch never writes what the fetch reads, so
      the fetch is a state-passing function and the loop a transition system
      of its own (module [Poll]). *)

From Stdlib Require Import ZArith Floats.
From stdpp Require Import gmap strings list pretty.

Local Set Warnings "-inexact-float,-register-all".

(** ** JavaScript numbers *)

Module Num.

Definition isNaN (x : float) : bool := PrimFloat.is_nan x.

Definition isNegZero (x : float) : bool :=
  match PrimFloat.classify x with NZero => true | _ => false end.

(** [Math.max(a, b)]: [NaN] if either argument is, and [+0] above [-0]. *)
Definition Math_max (a b : float) : float :=
  if isNaN a || isNaN b then nan
  else if (a <? b)%float then b
  else if (b <? a)%float then a
  else if isNegZero a then b else a.

(** [Math.min(a, b)]: [NaN] if either argument is, and [-0] below [+0]. *)
Definition Math_min (a b : float) : float :=
  if isNaN a || isNaN b then nan
  else if (a <? b)%float then a
  else if (b <? a)%float then b
  else if isNegZero a then a else b.

Definition Math_sqrt (x : float) : float := PrimFloat.sqrt x.

(** An integer-valued number (a loop counter, a grid side). *)
Definition ofZ (z : Z) : float :=
  match z with
  | Z0 => 0%float
  | Zpos _ => PrimFloat.of_uint63 (Uint63.of_Z z)
  | Zneg p => (- PrimFloat.of_uint63 (Uint63.of_Z (Zpos p)))%float
  end.

Definition ofNat (n : nat) : float := ofZ (Z.of_nat n).

(** [Math.floor] of a finite number, as an integer. *)
Definition floorZ (x : float) : Z :=
  match Prim2SF x with
  | S754_finite s m e =>
      let q := if (0 <=? e)%Z then (Zpos m * 2 ^ e)%Z
               else (Zpos m / 2 ^ (- e))%Z in
      let exact := (0 <=? e)%Z || (Zpos m mod 2 ^ (- e) =? 0)%Z in
      if s then (if exact then - q else - q - 1)%Z else q
  | _ => 0%Z
  end.

(** The sample lies in the closed unit interval. *)
Definition inUnit (x : float) : bool := ((0 <=? x) && (x <=? 1))%float.

End Num.
Export Num.

(** ** Typed arrays *)

(** A [Float32Array], by its elements. *)
Abbreviation Float32Array := (list float).

(** [new Float32Array(n)]: [n] zeros. *)
Definition Float32Array_new (n : nat) : Float32Array := repeat 0%float n.

(** [a.fill(v)]. *)
Definition fill (a : Float32Array) (v : float) : Float32Array :=
  repeat v (length a).

(** ** Normalizer *)

Module MCPNormalizer.

(** The body of the [for (let i = 1; ...)] scan of
    [MCPElevationClient.normalizeElevationData]. *)
Definition scan (acc : float * float) (x : float) : float * float :=
  let '(minElevation, maxElevation) := acc in
  let minElevation := if (x <? minElevation)%float then x else minElevation in
  let maxElevation := if (maxElevation <? x)%float then x else maxElevation in
  (minElevation, maxElevation).

Definition minmax (first : float) (rest : list float) : float * float :=
  foldl scan (first, first) rest.

(** [MCPElevationClient.normalizeElevationData]; the argument is [None]
    for a falsy [elevationData], the result is [None] for [null]. *)
Definition normalizeElevationData (elevationData : option Float32Array)
  : option Float32Array :=
  match elevationData with
  | None | Some [] => None
  | Some ((first :: rest) as data) =>
      let '(minElevation, maxElevation) := minmax first rest in
      let elevationRange := (maxElevation - minElevation)%float in
      if (elevationRange =? 0)%float
      then Some (fill (Float32Array_new (length data)) 0.5%float)
      else Some (map (fun x => ((x - minElevation) / elevationRange)%float) data)
  end.

End MCPNormalizer.

Module LoaderNormalizer.

(** The body of the min/max scan of
    [TopographyDataLoader.normalizeElevationData]. *)
Definition scan (acc : float * float) (x : float) : float * float :=
  let '(minElevation, maxElevation) := acc in
  (Math_min minElevation x, Math_max maxElevation x).

Definition minmax (data : list float) : float * float :=
  foldl scan (infinity, neg_infinity) data.

(** [TopographyDataLoader.normalizeElevationData]: there is no guard for an
    empty array. *)
Definition normalizeElevationData (elevationData : Float32Array)
  : Float32Array :=
  let '(minElevation, maxElevation) := minmax elevationData in
  let elevationRange := (maxElevation - minElevation)%float in
  if (elevationRange =? 0)%float
  then fill (Float32Array_new (length elevationData)) 0.5%float
  else map (fun x => ((x - minElevation) / elevationRange)%float) elevationData.

End LoaderNormalizer.

(** ** Values and plain objects *)

Inductive value :=
| VUndefined
| VNull
| VNumber (x : float)
| VString (s : string)
| VArray (a : list float)
| VObject (props : list (string * value)).

Definition truthy (v : value) : bool :=
  match v with
  | VUndefined | VNull => false
  | VNumber x => negb (isNaN x || (x =? 0)%float)
  | VString s => negb (String.eqb s "")
  | VArray _ | VObject _ => true
  end.

Fixpoint prop (name : string) (props : list (string * value)) : value :=
  match props with
  | [] => VUndefined
  | (k, v) :: rest => if String.eqb k name then v else prop name rest
  end.

(** [v?.name]: [undefined] when [v] has no property of that name. *)
Definition get (name : string) (v : value) : value :=
  match v with
  | VObject props => prop name props
  | _ => VUndefined
  end.

(** [a || b]. *)
Definition orElse (a b : value) : value := if truthy a then a else b.

(** [new Float32Array(v)] for an array [v] of numbers, the wire format of
    [elevation_data]; anything else has no numeric elements. *)
Definition Float32Array_from (v : value) : Float32Array :=
  match v with
  | VArray a => a
  | _ => []
  end.

(** ** Completions and the state monad of a call *)

Inductive Completion (A : Type) :=
| Return (a : A)
| Throw (error : string).
Arguments Return {A} a.
Arguments Throw {A} error.

Definition M (S A : Type) : Type := S -> Completion A * S.

Definition ret {S A} (a : A) : M S A := fun s => (Return a, s).

Definition throw {S A} (error : string) : M S A := fun s => (Throw error, s).

Definition bind {S A B} (m : M S A) (k : A -> M S B) : M S B :=
  fun s =>
    match m s with
    | (Return a, s') => k a s'
    | (Throw e, s') => (Throw e, s')
    end.

(** [try { m } catch (error) { handler }]: the writes made before the throw
    stay. *)
Definition tryCatch {S A} (m : M S A) (handler : string -> M S A) : M S A :=
  fun s =>
    match m s with
    | (Return a, s') => (Return a, s')
    | (Throw e, s') => handler e s'
    end.

Definition gets {S A} (f : S -> A) : M S A := fun s => (Return (f s), s).

Definition modify {S} (f : S -> S) : M S unit := fun s => (Return tt, f s).

Notation "'let*' x ':=' m 'in' k" := (bind m (fun x => k))
  (at level 10, x name, m at level 100, k at level 200, only parsing).
Notation "'stmt' m 'then' k" := (bind m (fun _ => k))
  (at level 10, m at level 100, k at level 200, only parsing).

(** A [for (let i = 0; i < n; i++)] loop whose body updates the local [a]. *)
Fixpoint forLoop {S A} (range : list nat) (body : nat -> A -> M S A) (a : A)
  : M S A :=
  match range with
  | [] => ret a
  | i :: rest => let* a' := body i a in forLoop rest body a'
  end.

(** ** The remote side and the ambient functions *)

(** What one JSON-RPC [POST] to the gateway comes back with. *)
Inductive Reply :=
| FetchRejected                  (* [fetch] rejects: unreachable, timeout *)
| HttpError (status : Z)         (* [!response.ok] *)
| BodyRejected                   (* [response.json()] rejects *)
| RpcError (message : string)    (* [jsonRpcResponse.error] is set *)
| RpcNoContent                   (* [result?.content?.[0]] is falsy *)
| RpcBadText                     (* [JSON.parse(result.content[0].text)] throws *)
| RpcContent (parsed : value).   (* the parsed text of [result.content[0]] *)

Record Env := {
  gridReply : Reply;             (* answer to [fetch_elevation_grid] *)
  infoReply : Reply;             (* answer to [get_resort_info] *)
  Date_now : Z;
  Math_random : nat -> float;    (* the n-th call of [Math.random()] *)
  Math_sin : float -> float;
  Math_cos : float -> float
}.

(** The same page with another answer from the gateway. *)
Definition withGrid (r : Reply) (env : Env) : Env :=
  {| gridReply := r; infoReply := infoReply env; Date_now := Date_now env;
     Math_random := Math_random env; Math_sin := Math_sin env;
     Math_cos := Math_cos env |}.

Definition withInfo (r : Reply) (env : Env) : Env :=
  {| gridReply := gridReply env; infoReply := r; Date_now := Date_now env;
     Math_random := Math_random env; Math_sin := Math_sin env;
     Math_cos := Math_cos env |}.


(** The exchange did not deliver a parsed payload. *)
Definition failed (r : Reply) : bool :=
  match r with
  | RpcContent _ => false
  | _ => true
  end.

(** A JSON-RPC [tools/call] request as sent to [http://localhost:8081/mcp]. *)
Record Request := {
  req_name : string;
  req_resort_key : string;
  req_resolution : option Z;
  req_area_size : option Z;
  req_request_id : option string
}.

(** What a call shares with everything else on the page. *)
Record World := {
  posts : list Request;          (* requests sent so far, oldest first *)
  polling : list string;         (* requestIds whose poll loop was started *)
  randomCalls : nat;             (* calls of [Math.random()] so far *)
  progressShown : bool           (* the [#elevation-progress] element exists *)
}.

Definition World_init : World :=
  {| posts := []; polling := []; randomCalls := 0; progressShown := false |}.

(** The page after [k] more calls of [Math.random()]. *)
Definition drawn (k : nat) (w : World) : World :=
  {| posts := posts w; polling := polling w; randomCalls := randomCalls w + k;
     progressShown := progressShown w |}.

(** Operations on the page, for a method of any object [X]. *)
Section Page.
Context {X : Type}.

Definition showProgress : M (X * World) unit :=
  modify (fun '(x, w) =>
    (x, {| posts := posts w; polling := polling w;
           randomCalls := randomCalls w; progressShown := true |})).

Definition hideProgress : M (X * World) unit :=
  modify (fun '(x, w) =>
    (x, {| posts := posts w; polling := polling w;
           randomCalls := randomCalls w; progressShown := false |})).

(** [this.pollProgress(requestId)]: the loop is started and not awaited;
    its steps are in module [Poll]. *)
Definition pollProgress (requestId : string) : M (X * World) unit :=
  modify (fun '(x, w) =>
    (x, {| posts := posts w; polling := polling w ++ [requestId];
           randomCalls := randomCalls w; progressShown := progressShown w |})).

(** [fetch('http://localhost:8081/mcp', { method: 'POST', ... })]. *)
Definition post (r : Request) : M (X * World) unit :=
  modify (fun '(x, w) =>
    (x, {| posts := posts w ++ [r]; polling := polling w;
           randomCalls := randomCalls w; progressShown := progressShown w |})).

(** [Math.random()]. *)
Definition random (env : Env) : M (X * World) float :=
  fun '(x, w) =>
    (Return (Math_random env (randomCalls w)),
     (x, {| posts := posts w; polling := polling w;
            randomCalls := S (randomCalls w); progressShown := progressShown w |})).

End Page.

(** ** MCPElevationClient ([src/mcp_client.js]) *)

Module MCPElevationClient.

(** The fields of an instance that the pipeline reads or writes. *)
Record Client := {
  isInitialized : bool;
  resources : list string;
  progressAbort : option (gmap string bool)   (* [this._progressAbort] *)
}.

(** [constructor()]. *)
Definition new : Client :=
  {| isInitialized := false; resources := []; progressAbort := None |}.

(** A method runs on its instance and on the page. *)
Definition St : Type := Client * World.

Definition setInitialized (b : bool) : M St unit :=
  modify (fun '(c, w) =>
    ({| isInitialized := b; resources := resources c;
        progressAbort := progressAbort c |}, w)).

Definition setResources (r : list string) : M St unit :=
  modify (fun '(c, w) =>
    ({| isInitialized := isInitialized c; resources := r;
        progressAbort := progressAbort c |}, w)).

(** [if (!this._progressAbort) this._progressAbort = {};
     this._progressAbort[requestId] = flag]. *)
Definition setAbortFlag (requestId : string) (flag : bool) (c : Client) : Client :=
  {| isInitialized := isInitialized c; resources := resources c;
     progressAbort := Some (<[requestId := flag]> (default ∅ (progressAbort c))) |}.

Definition writeAbort (requestId : string) (flag : bool) : M St unit :=
  modify (fun '(c, w) => (setAbortFlag requestId flag c, w)).

(** [this._progressAbort?.[requestId]], as a condition. *)
Definition aborted (requestId : string) (c : Client) : bool :=
  match progressAbort c with
  | Some table => default false (table !! requestId)
  | None => false
  end.

(** [listResources()]. *)
Definition listResources : M St (list string) :=
  let uris := ["elevation://grid/chamonix"; "elevation://metadata/chamonix";
               "elevation://grid/whistler"; "elevation://metadata/whistler";
               "elevation://grid/zermatt"; "elevation://metadata/zermatt";
               "elevation://grid/stanton"; "elevation://metadata/stanton";
               "elevation://grid/valdisere"; "elevation://metadata/valdisere"] in
  tryCatch (stmt setResources uris then ret uris) (fun error => throw error).

(** [initialize()]. *)
Definition initialize : M St bool :=
  tryCatch
    (stmt setInitialized true then
     let* _ := listResources in
     ret true)
    (fun _ => ret false).

(** The arguments object of a tool call. *)
Record ToolArgs := {
  resort_key : string;
  resolution : Z;
  area_size : Z
}.

(** The members [class MCPElevationClient] declares. *)
Definition members : list string :=
  ["constructor"; "initialize"; "listResources"; "readResource"; "callTool";
   "bridgeToHttpServer"; "pollProgress"; "showProgress"; "hideProgress";
   "handleResortInfo"; "fetchElevationData"; "normalizeElevationData";
   "getAvailableResorts"; "cleanup"].

(** [this.generateSyntheticElevation]: the class declares no member of this
    name, so the property read yields [undefined]. *)
Definition generateSyntheticElevation : option (value -> value) :=
  if bool_decide ("generateSyntheticElevation" ∈ members)
  then Some (fun _ => VUndefined) else None.

(** [handleResortInfo(resortKey)]. *)
Definition handleResortInfo (env : Env) (resortKey : string) : M St value :=
  tryCatch
    (stmt post {| req_name := "get_resort_info"; req_resort_key := resortKey;
                 req_resolution := None; req_area_size := None;
                 req_request_id := None |} then
     match infoReply env with
     | FetchRejected => throw "TypeError: Failed to fetch"
     | HttpError status => throw ("HTTP " +:+ pretty status)
     | BodyRejected => throw "SyntaxError: response.json()"
     | RpcError message => throw ("MCP Error: " +:+ message)
     | RpcNoContent => ret VNull
     | RpcBadText => throw "SyntaxError: JSON.parse"
     | RpcContent resortInfo =>
         let* syntheticData :=
           match generateSyntheticElevation with
           | Some method => ret (method resortInfo)
           | None =>
               throw "TypeError: this.generateSyntheticElevation is not a function"
           end in
         match resortInfo with
         | VUndefined | VNull =>
             throw "TypeError: Cannot read properties of null"
         | _ =>
             ret (VObject
                    [("elevationData", syntheticData);
                     ("metadata",
                      VObject [("resort", VString resortKey);
                               ("source", VString "Synthetic (Resort Info Fallback)");
                               ("base_elevation", get "base_elevation" resortInfo);
                               ("peak_elevation", get "peak_elevation" resortInfo)])])
         end
     end)
    (fun _ => ret VNull).

(** [`req_${Date.now()}_${Math.floor(Math.random()*1e6)}`]. *)
Definition makeRequestId (now : Z) (r : float) : string :=
  "req_" +:+ pretty now +:+ "_" +:+ pretty (floorZ (r * 1e6)%float).

(** The requestId that a bridge call starting on page [w] generates. *)
Definition requestIdOf (env : Env) (w : World) : string :=
  makeRequestId (Date_now env) (Math_random env (randomCalls w)).

(** [bridgeToHttpServer(toolName, args)]; [args.resort] and [args.areaSize]
    are [undefined] in every caller. *)
Definition bridgeToHttpServer (env : Env) (toolName : string) (args : ToolArgs)
  : M St value :=
  let resortKey := if String.eqb (resort_key args) "" then "whistler"
                   else resort_key args in
  tryCatch
    (let resolution := if (resolution args =? 0)%Z then 16%Z else resolution args in
     let areaSize := if (area_size args =? 0)%Z then 1000%Z else area_size args in
     let* r := random env in
     let requestId := makeRequestId (Date_now env) r in
     stmt showProgress then
     stmt writeAbort requestId false then
     stmt pollProgress requestId then
     stmt post {| req_name := "fetch_elevation_grid"; req_resort_key := resortKey;
                 req_resolution := Some resolution; req_area_size := Some areaSize;
                 req_request_id := Some requestId |} then
     match gridReply env with
     | FetchRejected => throw "TypeError: Failed to fetch"
     | HttpError status =>
         stmt hideProgress then throw ("HTTP " +:+ pretty status)
     | BodyRejected => throw "SyntaxError: response.json()"
     | RpcError message =>
         stmt hideProgress then throw ("MCP Error: " +:+ message)
     | RpcNoContent =>
         stmt hideProgress then ret VNull
     | RpcBadText => throw "SyntaxError: JSON.parse"
     | RpcContent elevationData =>
         stmt writeAbort requestId true then
         stmt hideProgress then
         if truthy (get "elevation_data" elevationData) then
           ret (VObject
                  [("elevationData", get "elevation_data" elevationData);
                   ("metadata",
                    VObject [("resort", get "resort" elevationData);
                             ("resolution", get "resolution" elevationData);
                             ("area_size", get "area_size" elevationData);
                             ("source", get "source" elevationData);
                             ("request_id",
                              orElse (get "request_id" elevationData)
                                     (VString requestId))])])
         else ret VNull
     end)
    (fun _ =>
       stmt hideProgress then
       tryCatch (handleResortInfo env resortKey) (fun _ => ret VNull)).

(** [callTool(toolName, args)]. *)
Definition callTool (env : Env) (toolName : string) (args : ToolArgs)
  : M St value :=
  tryCatch (bridgeToHttpServer env toolName args) (fun error => throw error).

(** [fetchElevationData(resortKey, resolution, areaSize)]: a normalized
    [Float32Array], or [None] for [null]. *)
Definition fetchElevationData (env : Env) (resortKey : string)
    (resolution areaSize : Z) : M St (option Float32Array) :=
  tryCatch
    (let* initialized := gets (fun '(c, _) => isInitialized c) in
     stmt (if initialized then ret true else initialize) then
     let* result := callTool env "fetch_elevation_grid"
                      {| resort_key := resortKey; resolution := resolution;
                         area_size := areaSize |} in
     if truthy (get "elevation_data" result) then
       let elevationArray := Float32Array_from (get "elevation_data" result) in
       ret (MCPNormalizer.normalizeElevationData (Some elevationArray))
     else ret None)
    (fun error => throw error).

End MCPElevationClient.

(** ** The progress poll loop ([MCPElevationClient.pollProgress]) *)

Module Poll.
Import MCPElevationClient.

Definition maxPolls : nat := 600.

(** What one [GET /progress/${requestId}] comes back with. *)
Inductive PollReply :=
| ProgressOk (progress : float)   (* [response.ok], shown by [showProgress] *)
| ProgressNotOk (status : Z)      (* [!response.ok] *)
| ProgressThrows.                 (* anything thrown inside the [try] *)

Inductive Phase :=
| Scheduled                       (* a [setTimeout(poll, ...)] is pending *)
| InFlight                        (* [poll] awaits its status query *)
| Resolved.                       (* [resolve()] was called *)

(** One poll loop, the instance it reads its abort flag from, and what it
    did to the page. *)
Record Sys := {
  client : Client;
  phase : Phase;
  pollCount : nat;
  queries : nat;                  (* status queries issued so far *)
  indicator : bool                (* the progress element exists *)
}.

(** [pollProgress(requestId)] up to [setTimeout(poll, 200)]. *)
Definition start (c : Client) (shown : bool) : Sys :=
  {| client := c; phase := Scheduled; pollCount := 0; queries := 0;
     indicator := shown |}.

(** What can happen to a running loop.  The only other write to the table,
    [this._progressAbort[requestId] = false], is made for a requestId that was
    just generated, before its loop is started. *)
Inductive Event :=
| Timer                           (* the pending timeout expires *)
| Response (r : PollReply)        (* the status query in flight settles *)
| SetAbort (requestId : string)   (* [this._progressAbort[requestId] = true] *)
| HideProgress.                   (* [this.hideProgress()] *)

Definition continue (s : Sys) (shown : bool) (again : bool) : Sys :=
  if again
  then {| client := client s; phase := Scheduled; pollCount := S (pollCount s);
          queries := queries s; indicator := shown |}
  else {| client := client s; phase := Resolved; pollCount := pollCount s;
          queries := queries s; indicator := shown |}.

(** The loop for [requestId] reacting to one event. *)
Definition step (requestId : string) (s : Sys) (e : Event) : Sys :=
  match e with
  | Timer =>
      match phase s with
      | Scheduled =>
          if aborted requestId (client s)
          then {| client := client s; phase := Resolved; pollCount := pollCount s;
                  queries := queries s; indicator := indicator s |}
          else {| client := client s; phase := InFlight; pollCount := pollCount s;
                  queries := S (queries s); indicator := indicator s |}
      | _ => s
      end
  | Response r =>
      match phase s with
      | InFlight =>
          match r with
          | ProgressOk progress =>
              continue s true
                ((progress <? 100)%float && (pollCount s <? maxPolls)%nat
                 && negb (aborted requestId (client s)))
          | ProgressNotOk _ | ProgressThrows =>
              continue s (indicator s)
                ((pollCount s <? maxPolls)%nat
                 && negb (aborted requestId (client s)))
          end
      | _ => s
      end
  | SetAbort requestId' =>
      {| client := setAbortFlag requestId' true (client s); phase := phase s;
         pollCount := pollCount s; queries := queries s; indicator := indicator s |}
  | HideProgress =>
      {| client := client s; phase := phase s; pollCount := pollCount s;
         queries := queries s; indicator := false |}
  end.

Definition run (requestId : string) (s : Sys) (events : list Event) : Sys :=
  foldl (step requestId) s events.

End Poll.

(** ** TopographyDataLoader ([src/js/topography.js]) *)

Module TopographyDataLoader.
Import MCPElevationClient.

(** An entry of [this.resortCoordinates]; [ref] is the identity of the
    object, which is what [===] compares. *)
Record Resort := {
  ref : nat;
  lat : float;
  lon : float;
  name : string
}.

Definition resortCoordinates : list (string * Resort) :=
  [("chamonix", {| ref := 0; lat := 45.9237; lon := 6.8694; name := "Chamonix, France" |});
   ("whistler", {| ref := 1; lat := 50.1163; lon := -122.9574; name := "Whistler, Canada" |});
   ("zermatt", {| ref := 2; lat := 46.0207; lon := 7.7491; name := "Zermatt, Switzerland" |});
   ("stanton", {| ref := 3; lat := 47.1333; lon := 10.2667; name := "St. Anton, Austria" |});
   ("valdisere", {| ref := 4; lat := 45.4489; lon := 6.9797; name := "Val d'Isère, France" |})].

Record Profile := {
  baseElevation : float;
  peakElevation : float;
  steepness : float
}.

Definition resortProfiles : list (string * Profile) :=
  [("chamonix", {| baseElevation := 1035; peakElevation := 3842; steepness := 0.8 |});
   ("whistler", {| baseElevation := 652; peakElevation := 2182; steepness := 0.6 |});
   ("zermatt", {| baseElevation := 1608; peakElevation := 3883; steepness := 0.9 |});
   ("stanton", {| baseElevation := 1304; peakElevation := 2811; steepness := 0.85 |});
   ("valdisere", {| baseElevation := 1550; peakElevation := 3456; steepness := 0.7 |})].

(** [table[key]] on the own properties of an object literal (the names
    inherited from [Object.prototype] are not modelled). *)
Fixpoint own {V} (key : string) (table : list (string * V)) : option V :=
  match table with
  | [] => None
  | (k, v) :: rest => if String.eqb k key then Some v else own key rest
  end.

(** ** The cache, a [Map] in insertion order *)

Abbreviation Cache := (list (string * Float32Array)).

Definition Map_get (key : string) (m : Cache) : option Float32Array := own key m.

Definition Map_has (key : string) (m : Cache) : bool :=
  match Map_get key m with Some _ => true | None => false end.

(** [m.set(key, v)]: a present key keeps its place, a new one goes last. *)
Fixpoint Map_set (key : string) (v : Float32Array) (m : Cache) : Cache :=
  match m with
  | [] => [(key, v)]
  | (k, v') :: rest =>
      if String.eqb k key then (k, v) :: rest else (k, v') :: Map_set key v rest
  end.

Definition Map_size (m : Cache) : nat := length m.

Record Loader := {
  cache : Cache;
  mcpClient : option Client
}.

(** [constructor()]. *)
Definition new : Loader := {| cache := []; mcpClient := None |}.

Definition St : Type := Loader * World.

Definition cacheSet (key : string) (v : Float32Array) : M St unit :=
  modify (fun '(l, w) =>
    ({| cache := Map_set key v (cache l); mcpClient := mcpClient l |}, w)).

(** [clearCache()]. *)
Definition clearCache : M St unit :=
  modify (fun '(l, w) => ({| cache := []; mcpClient := mcpClient l |}, w)).

(** A method of [this.mcpClient] run from the loader. *)
Definition onClient {A} (m : M MCPElevationClient.St A) : M St A :=
  fun '(l, w) =>
    match mcpClient l with
    | None => (Throw "TypeError: this.mcpClient is null", (l, w))
    | Some c =>
        let '(r, (c', w')) := m (c, w) in
        (r, ({| cache := cache l; mcpClient := Some c' |}, w'))
    end.

(** [Object.keys(this.resortCoordinates).find(key =>
      this.resortCoordinates[key] === resort)]. *)
Definition keyOf (resort : Resort) : option string :=
  fst <$> List.find (fun '(_, r) => Nat.eqb (ref r) (ref resort)) resortCoordinates.

Definition profileOf (resort : Resort) : Profile :=
  default {| baseElevation := 1035; peakElevation := 3842; steepness := 0.8 |}
          (key ← keyOf resort; own key resortProfiles).

(** [Math.max(0, Math.min(1, height))]. *)
Definition clamp (height : float) : float := Math_max 0 (Math_min 1 height).

(** The height of cell [(x, z)] before the random term is added. *)
Definition shape (env : Env) (profile : Profile) (resolution : Z) (x z : nat)
  : float :=
  let nx := (ofNat x / (ofZ resolution - 1) * 2 - 1)%float in
  let nz := (ofNat z / (ofZ resolution - 1) * 2 - 1)%float in
  let distanceFromCenter := Math_sqrt (nx * nx + nz * nz)%float in
  let height := Math_max 0 (1 - distanceFromCenter * steepness profile)%float in
  (height + Math_sin env (nx * 3) * Math_cos env (nz * 3) * 0.1)%float.

(** [generateSyntheticElevationData(resort, resolution, areaSize)]. *)
Definition generateSyntheticElevationData (env : Env) (resort : Resort)
    (resolution areaSize : Z) : M St Float32Array :=
  let elevationData := Float32Array_new (Z.to_nat (resolution * resolution)) in
  let profile := profileOf resort in
  forLoop (seq 0 (Z.to_nat resolution)) (fun z elevationData =>
    forLoop (seq 0 (Z.to_nat resolution)) (fun x elevationData =>
      let index := (z * Z.to_nat resolution + x)%nat in
      let height := shape env profile resolution x z in
      let* r := random env in
      let height := (height + (r * 0.1 - 0.05))%float in
      ret (<[index := clamp height]> elevationData))
    elevationData)
  elevationData.

(** [`${resortKey}_${resolution}_${areaSize}`]. *)
Definition cacheKeyOf (resortKey : string) (resolution areaSize : Z) : string :=
  resortKey +:+ "_" +:+ pretty resolution +:+ "_" +:+ pretty areaSize.

(** The [try] block of [fetchElevationData]: the client is created on first
    use and asked for the grid; the [catch] only logs. *)
Definition tryMCPClient (env : Env) (resortKey : string)
    (resolution areaSize : Z) : M St (option Float32Array) :=
  tryCatch
    (let* client := gets (fun '(l, _) => mcpClient l) in
     stmt (match client with
           | Some _ => ret true
           | None =>
               stmt modify (fun '(l, w) =>
                      ({| cache := cache l;
                          mcpClient := Some MCPElevationClient.new |}, w)) then
               onClient initialize
           end) then
     onClient (MCPElevationClient.fetchElevationData
                 env resortKey resolution areaSize))
    (fun _ => ret None).

(** [fetchElevationData(resortKey, resolution, areaSize)]. *)
Definition fetchElevationData (env : Env) (resortKey : string)
    (resolution areaSize : Z) : M St Float32Array :=
  let cacheKey := cacheKeyOf resortKey resolution areaSize in
  let* cached := gets (fun '(l, _) =>
                    if Map_has cacheKey (cache l) then Map_get cacheKey (cache l)
                    else None) in
  match cached with
  | Some grid => ret grid
  | None =>
      match own resortKey resortCoordinates with
      | None => throw ("Unknown resort: " +:+ resortKey)
      | Some resort =>
          let* realElevationData :=
            tryMCPClient env resortKey resolution areaSize in
          match realElevationData with
          | Some grid =>
              stmt cacheSet cacheKey grid then ret grid
          | None =>
              let* elevationData :=
                generateSyntheticElevationData env resort resolution areaSize in
              stmt cacheSet cacheKey elevationData then ret elevationData
          end
      end
  end.

(** ** What the generator computes, cell by cell *)

(** The random term of a cell. *)
Definition noise (r : float) : float := (r * 0.1 - 0.05)%float.

(** Cell [i] (row-major) of a grid generated when [k0] random numbers had
    been drawn before. *)
Definition sample (env : Env) (profile : Profile) (resolution : Z) (k0 i : nat)
  : float :=
  let n := Z.to_nat resolution in
  clamp (shape env profile resolution (i mod n) (i / n)
         + noise (Math_random env (k0 + i)))%float.

Definition synthetic (env : Env) (profile : Profile) (resolution : Z) (k0 : nat)
  : Float32Array :=
  let n := Z.to_nat resolution in
  map (sample env profile resolution k0) (seq 0 (n * n)).

(** What [generateSyntheticElevationData] returns: for a negative side the
    loops do not run. *)
Definition generated (env : Env) (resort : Resort) (resolution : Z) (k0 : nat)
  : Float32Array :=
  if (resolution <? 0)%Z
  then Float32Array_new (Z.to_nat (resolution * resolution))
  else synthetic env (profileOf resort) resolution k0.

(** The array after the first [m] cells were written. *)
Definition filled (env : Env) (profile : Profile) (resolution : Z) (k0 m : nat)
  : Float32Array :=
  let n := Z.to_nat resolution in
  map (sample env profile resolution k0) (seq 0 m) ++ repeat 0%float (n * n - m).




(** A loader right after [new TopographyDataLoader()], on an untouched page. *)
Definition fresh : St := (new, World_init).

(** [this.resortCoordinates.chamonix]. *)
Definition chamonix : Resort :=
  {| ref := 0; lat := 45.9237; lon := 6.8694; name := "Chamonix, France" |}.

(** [isValidResort] of the test suite: the key is one of the five. *)
Definition knownResort (resortKey : string) : bool :=
  match own resortKey resortCoordinates with
  | Some _ => true
  | None => false
  end.

(** One call of [fetchElevationData], with what the page and the remote side
    do during it. *)
Record Call := {
  call_env : Env;
  call_resortKey : string;
  call_resolution : Z;
  call_areaSize : Z
}.

Definition cacheKeyOfCall (c : Call) : string :=
  cacheKeyOf (call_resortKey c) (call_resolution c) (call_areaSize c).

(** A sequence of awaited [fetchElevationData] calls on one loader; a call
    that rejects does not stop the later ones. *)
Fixpoint fetchAll (calls : list Call) : M St unit :=
  match calls with
  | [] => ret tt
  | c :: rest =>
      stmt tryCatch
             (stmt fetchElevationData (call_env c) (call_resortKey c)
                     (call_resolution c) (call_areaSize c) then ret tt)
             (fun _ => ret tt) then
      fetchAll rest
  end.

(** The keys of a [Map] after [set(key, _)]. *)
Definition addKey (keys : list string) (key : string) : list string :=
  if bool_decide (key ∈ keys) then keys else keys ++ [key].

End TopographyDataLoader.

(** ** Pages used to run the pipeline on concrete inputs *)

(** The gateway is unreachable. *)
Definition offline : Env :=
  {| gridReply := FetchRejected; infoReply := FetchRejected;
     Date_now := 1700000000000;
     Math_random := fun _ => 0.5%float;
     Math_sin := fun x => x; Math_cos := fun _ => 1%float |}.

(** The gateway answers every request with HTTP 500. *)
Definition failing : Env :=
  {| gridReply := HttpError 500; infoReply := HttpError 500;
     Date_now := 1700000000500;
     Math_random := fun n => (ofNat n / 1000)%float;
     Math_sin := fun x => x; Math_cos := fun _ => 1%float |}.

(** Eleven calls with distinct keys. *)
Definition elevenCalls (env : Env) : list TopographyDataLoader.Call :=
  map (fun resolution =>
         {| TopographyDataLoader.call_env := env;
            TopographyDataLoader.call_resortKey := "chamonix";
            TopographyDataLoader.call_resolution := resolution;
            TopographyDataLoader.call_areaSize := 2000 |})
      (seqZ 2 11).

(** A well-formed answer carrying four samples. *)
Definition fourSamples : value :=
  VObject [("elevation_data", VArray [1000; 1500; 2000; 2500]%float);
           ("resort", VString "chamonix");
           ("resolution", VNumber 2);
           ("area_size", VNumber 2000);
           ("source", VString "Open Topo Data")].

(** ** Further members of the two classes *)


(** [MCPElevationClient.getAvailableResorts()]. *)
Definition getAvailableResorts : list string :=
  ["chamonix"; "whistler"; "zermatt"; "stanton"; "valdisere"].

(** The answers on which the [try] block of [bridgeToHttpServer] throws, so
    that its [catch] asks for the resort info. *)
Definition thrown (r : Reply) : bool :=
  match r with
  | FetchRejected | HttpError _ | BodyRejected | RpcError _ | RpcBadText => true
  | RpcNoContent | RpcContent _ => false
  end.

(** A status answer after which the loop polls again unless it is aborted or
    out of polls. *)
Definition incomplete (r : Poll.PollReply) : bool :=
  match r with
  | Poll.ProgressOk progress => (progress <? 100)%float
  | Poll.ProgressNotOk _ | Poll.ProgressThrows => true
  end.

(** The events of a loop that is answered with [replies], one per query. *)
Definition rounds (replies : list Poll.PollReply) : list Poll.Event :=
  flat_map (fun r => [Poll.Timer; Poll.Response r]) replies.

(** The answer carries a parsed payload with a truthy [elevation_data]. *)
Definition delivers (r : Reply) : bool :=
  match r with
  | RpcContent payload => truthy (get "elevation_data" payload)
  | _ => false
  end.

(** The loop has issued no more queries than its poll counter allows. *)
Definition withinBudget (s : Poll.Sys) : Prop :=
  Poll.pollCount s <= Poll.maxPolls
  /\ match Poll.phase s with
     | Poll.Scheduled => Poll.queries s <= Poll.pollCount s
     | Poll.InFlight | Poll.Resolved => Poll.queries s <= S (Poll.pollCount s)
     end.

(** *** [MCPElevationClient.readResource] *)

(** [\w]: an ASCII letter, a digit or the underscore. *)
Definition isWordChar (c : Ascii.ascii) : bool :=
  let n := Ascii.nat_of_ascii c in
  ((48 <=? n) && (n <=? 57) || (65 <=? n) && (n <=? 90)
   || (97 <=? n) && (n <=? 122) || (n =? 95))%nat.

(** The longest run of word characters at the start of [s]. *)
Fixpoint takeWord (s : string) : string :=
  match s with
  | EmptyString => EmptyString
  | String c rest => if isWordChar c then String c (takeWord rest) else EmptyString
  end.

(** What follows [prefix] in [s], if [s] starts with it. *)
Fixpoint dropPrefix (prefix s : string) : option string :=
  match prefix, s with
  | EmptyString, _ => Some s
  | String a prefix', String b s' =>
      if Ascii.eqb a b then dropPrefix prefix' s' else None
  | String _ _, EmptyString => None
  end.

Inductive ResourceType := Grid | Metadata.

Definition resourceTypeName (t : ResourceType) : string :=
  match t with
  | Grid => "grid"
  | Metadata => "metadata"
  end.

(** [/elevation:\/\/(grid|metadata)\/(\w+)/] matched at the start of [s]: the
    two captures. *)
Definition matchHere (s : string) : option (ResourceType * string) :=
  match dropPrefix "elevation://" s with
  | None => None
  | Some rest =>
      let alternative t :=
        match dropPrefix (resourceTypeName t +:+ "/") rest with
        | Some tail =>
            match takeWord tail with
            | EmptyString => None
            | resortKey => Some (t, resortKey)
            end
        | None => None
        end in
      match alternative Grid with
      | Some m => Some m
      | None => alternative Metadata
      end
  end.

(** [uri.match(...)]: the pattern is not anchored, the leftmost match wins. *)
Fixpoint matchResource (uri : string) : option (ResourceType * string) :=
  match matchHere uri with
  | Some m => Some m
  | None =>
      match uri with
      | EmptyString => None
      | String _ rest => matchResource rest
      end
  end.

(** [readResource(uri)].  The arguments of [get_resort_info] have no
    [resolution] and no [area_size]: the bridge reads [undefined], which
    [||] treats as it treats [0]. *)
Definition readResource (env : Env) (uri : string)
  : M MCPElevationClient.St value :=
  tryCatch
    (match matchResource uri with
     | None => throw ("Invalid resource URI: " +:+ uri)
     | Some (Grid, resortKey) =>
         MCPElevationClient.callTool env "get_elevation_data"
           {| MCPElevationClient.resort_key := resortKey;
              MCPElevationClient.resolution := 128;
              MCPElevationClient.area_size := 2000 |}
     | Some (Metadata, resortKey) =>
         MCPElevationClient.callTool env "get_resort_info"
           {| MCPElevationClient.resort_key := resortKey;
              MCPElevationClient.resolution := 0;
              MCPElevationClient.area_size := 0 |}
     end)
    (fun error => throw error).

(** The URI under which [listResources] files a resort. *)
Definition resourceUri (t : ResourceType) (resortKey : string) : string :=
  "elevation://" +:+ resourceTypeName t +:+ "/" +:+ resortKey.

(** Every character of [s] is a word character. *)
Fixpoint isWord (s : string) : bool :=
  match s with
  | EmptyString => true
  | String c rest => isWordChar c && isWord rest
  end.

(** [s] has no underscore. *)
Fixpoint noUnderscore (s : string) : bool :=
  match s with
  | EmptyString => true
  | String c rest => negb (Ascii.eqb c (Ascii.ascii_of_nat 95)) && noUnderscore rest
  end.

(** [Number.isFinite(x)]. *)
Definition isFinite (x : float) : bool :=
  match Prim2SF x with
  | S754_zero _ | S754_finite _ _ _ => true
  | S754_infinity _ | S754_nan => false
  end.

(** The names a plain object inherits from [Object.prototype]: a read
    [table[key]] finds them although the literal does not list them. *)
Definition Object_prototype : list string :=
  ["constructor"; "__defineGetter__"; "__defineSetter__"; "hasOwnProperty";
   "__lookupGetter__"; "__lookupSetter__"; "isPrototypeOf";
   "propertyIsEnumerable"; "toString"; "valueOf"; "__proto__";
   "toLocaleString"].

Definition inherited (key : string) : bool :=
  existsb (String.eqb key) Object_prototype.

(** *** [TopographyDataLoader.interpolateElevation] *)

(** An entry of [elevationPoints]: [{ x, z, elevation }] with an elevation
    that is not [null]. *)
Record Point := {
  point_x : float;
  point_z : float;
  elevation : float
}.

(** [distance], as the loop body computes it for [point]. *)
Definition distanceTo (x z : float) (point : Point) : float :=
  let dx := (x - point_x point)%float in
  let dz := (z - point_z point)%float in
  Math_sqrt (dx * dx + dz * dz)%float.

(** The [for (const point of elevationPoints)] loop and the [return] after
    it. *)
Fixpoint weigh (x z : float) (elevationPoints : list Point)
    (totalWeight weightedSum : float) : float :=
  match elevationPoints with
  | [] =>
      if (0 <? totalWeight)%float then (weightedSum / totalWeight)%float
      else 0%float
  | point :: rest =>
      let distance := distanceTo x z point in
      if (distance <? 0.1)%float then elevation point
      else
        let weight := (1 / (distance + 1))%float in
        weigh x z rest (totalWeight + weight)%float
              (weightedSum + elevation point * weight)%float
  end.

(** [interpolateElevation(x, z, elevationPoints, resolution)]. *)
Definition interpolateElevation (x z : float) (elevationPoints : list Point)
    (resolution : Z) : float :=
  match elevationPoints with
  | [] => 0%float
  | _ => weigh x z elevationPoints 0 0
  end.

(** *** [TopographyDataLoader.fetchUSGSElevationGrid] *)

Definition Math_PI : float := 3.141592653589793%float.

(** [queryUSGSElevation(lon, lat)]: the deprecated stub resolves to [0]. *)
Definition queryUSGSElevation (lon lat : float) : Completion float :=
  Return 0%float.

(** [Math.max(1, Math.floor(resolution / 20))]. *)
Definition sampleStepOf (resolution : Z) : Z := Z.max 1 (resolution / 20).

(** The values that the counter of [for (let i = 0; i < limit; i += step)]
    takes from [i] on; [fuel] bounds the number of rounds. *)
Fixpoint stride (fuel i step limit : nat) : list nat :=
  match fuel with
  | O => []
  | S fuel' =>
      if (i <? limit)%nat then i :: stride fuel' (i + step) step limit else []
  end.

(** The counter values of the two sampling loops: [step] is at least 1, so
    [resolution] rounds are enough. *)
Definition sampled (resolution : Z) : list nat :=
  stride (Z.to_nat resolution) 0 (Z.to_nat (sampleStepOf resolution))
         (Z.to_nat resolution).

(** An entry of [results]: [elevation] is [None] for [null]. *)
Record QueryResult := {
  result_x : nat;
  result_z : nat;
  result_elevation : option float
}.

(** [results]: the settled queries, in the order in which they were made. *)
Definition usgsResults (env : Env) (resort : TopographyDataLoader.Resort)
    (resolution areaSize : Z) : list QueryResult :=
  let latRange := (ofZ areaSize / 111000)%float in
  let lonRange :=
    (ofZ areaSize
     / (111000 * Math_cos env (TopographyDataLoader.lat resort * Math_PI / 180)))%float in
  let minLat := (TopographyDataLoader.lat resort - latRange / 2)%float in
  let maxLat := (TopographyDataLoader.lat resort + latRange / 2)%float in
  let minLon := (TopographyDataLoader.lon resort - lonRange / 2)%float in
  let maxLon := (TopographyDataLoader.lon resort + lonRange / 2)%float in
  flat_map (fun z =>
    map (fun x =>
      let lat := (minLat + (maxLat - minLat) * (ofNat z / (ofZ resolution - 1)))%float in
      let lon := (minLon + (maxLon - minLon) * (ofNat x / (ofZ resolution - 1)))%float in
      match queryUSGSElevation lat lon with
      | Return elevation =>
          {| result_x := x; result_z := z; result_elevation := Some elevation |}
      | Throw _ =>
          {| result_x := x; result_z := z; result_elevation := None |}
      end)
      (sampled resolution))
    (sampled resolution).

(** [results.filter(r => r.elevation !== null)]. *)
Definition elevationPointsOf (results : list QueryResult) : list Point :=
  omap (fun r =>
          match result_elevation r with
          | Some e =>
              Some {| point_x := ofNat (result_x r); point_z := ofNat (result_z r);
                      elevation := e |}
          | None => None
          end) results.

(** The two nested loops that write [cell x z] to index
    [z * resolution + x]. *)
Definition fillGrid (n : nat) (cell : nat -> nat -> float)
    (elevationData : Float32Array) : Float32Array :=
  foldl (fun elevationData z =>
           foldl (fun elevationData x => <[(z * n + x)%nat := cell x z]> elevationData)
                 elevationData (seq 0 n))
        elevationData (seq 0 n).

(** [fetchUSGSElevationGrid(resort, resolution, areaSize)]: [None] for
    [null]. *)
Definition fetchUSGSElevationGrid (env : Env) (resort : TopographyDataLoader.Resort)
    (resolution areaSize : Z) : option Float32Array :=
  let elevationData := Float32Array_new (Z.to_nat (resolution * resolution)) in
  let results := usgsResults env resort resolution areaSize in
  let elevationPoints := elevationPointsOf results in
  match elevationPoints with
  | [] => None
  | _ =>
      let elevationData :=
        fillGrid (Z.to_nat resolution)
          (fun x z => interpolateElevation (ofNat x) (ofNat z) elevationPoints resolution)
          elevationData in
      Some (LoaderNormalizer.normalizeElevationData elevationData)
  end.

(** ** TerrainRenderer ([src/unnamed/part_007]), the caller of the loader *)

Module TerrainRenderer.

Record Profile := {
  name : string;
  baseElevation : float;
  verticalDrop : float;
  difficulty : float;
  features : list string
}.

Definition resortProfiles : list (string * Profile) :=
  [("chamonix",
    {| name := "Chamonix - Vallée Blanche"; baseElevation := 3800;
       verticalDrop := 2800; difficulty := 0.8;
       features := ["crevasses"; "seracs"; "steep_sections"] |});
   ("whistler",
    {| name := "Whistler - Peak 2 Peak"; baseElevation := 2200;
       verticalDrop := 1600; difficulty := 0.6;
       features := ["bowls"; "trees"; "groomed_runs"] |});
   ("zermatt",
    {| name := "Zermatt - Matterhorn Glacier"; baseElevation := 3800;
       verticalDrop := 2200; difficulty := 0.9;
       features := ["glacier"; "moguls"; "off_piste"] |});
   ("stanton",
    {| name := "St. Anton - Hahnenkamm"; baseElevation := 2800;
       verticalDrop := 1300; difficulty := 0.85;
       features := ["steep_pitch"; "jumps"; "compression"] |});
   ("valdisere",
    {| name := "Val d'Isère - Face de Bellevarde"; baseElevation := 3400;
       verticalDrop := 1800; difficulty := 0.7;
       features := ["wide_pistes"; "varied_terrain"; "high_altitude"] |})].

(** [this.resolution] and [this.terrainSize]. *)
Definition resolution : Z := 128.
Definition terrainSize : Z := 1000.

(** The functions of [Math] that only the procedural terrain needs. *)
Record MathLib := {
  Math_exp : float -> float;
  Math_pow : float -> float -> float
}.

(** One round of the [forEach] of [addTerrainFeatures]: the [switch]. *)
Definition addFeature (env : Env) (math : MathLib) (x z : float)
    (featureHeight : float) (feature : string) : float :=
  if String.eqb feature "steep_sections" then
    if ((-0.2 <? z) && (z <? 0.4) && (abs x <? 0.4))%float
    then (featureHeight + -0.15 * Math_sin env ((z + 0.2) * Math_PI * 3))%float
    else featureHeight
  else if String.eqb feature "bowls" then
    let bowlDist := Math_sqrt (x * x + (z + 0.3) * (z + 0.3))%float in
    if (bowlDist <? 0.3)%float
    then (featureHeight + -0.1 * (1 - bowlDist / 0.3))%float
    else featureHeight
  else if String.eqb feature "moguls" then
    if ((0 <? z) && (z <? 0.6))%float
    then (featureHeight + 0.02 * Math_sin env (x * 15) * Math_sin env (z * 12))%float
    else featureHeight
  else if String.eqb feature "jumps" then
    if ((0.2 <? z) && (z <? 0.4) && (abs x <? 0.3))%float
    then (featureHeight
          + 0.05 * Math_exp math (- Math_pow math ((z - 0.3) * 8) 2))%float
    else featureHeight
  else if String.eqb feature "crevasses" then
    let crevHash := (Math_sin env (x * 47.3 + z * 23.7) * 0.5 + 0.5)%float in
    if ((crevHash <? 0.05) && (z <? -0.3))%float
    then (featureHeight + -0.2)%float
    else featureHeight
  else featureHeight.

(** [addTerrainFeatures(x, z, profile)]. *)
Definition addTerrainFeatures (env : Env) (math : MathLib) (x z : float)
    (profile : Profile) : float :=
  foldl (addFeature env math x z) 0%float (features profile).

(** [generateNoise(x, z, difficulty)]. *)
Definition generateNoise (env : Env) (x z difficulty : float) : float :=
  let '(noise, _, _) :=
    foldl (fun '(noise, amplitude, frequency) (_ : nat) =>
             let nx := (x * frequency)%float in
             let nz := (z * frequency)%float in
             ((noise
               + amplitude
                 * (Math_sin env (nx * Math_PI) * Math_cos env (nz * Math_PI)
                    + Math_sin env (nx * 2.7 + 1.3) * Math_cos env (nz * 2.7 + 2.1)))%float,
              (amplitude * 0.6)%float, (frequency * 1.8)%float))
          (0%float, 0.05%float, 2%float) (seq 0 3) in
  (noise * difficulty * 0.5)%float.

(** The procedural terrain of [generateHeightMap], its last resort. *)
Definition procedural (env : Env) (math : MathLib) (profile : Profile)
  : Float32Array :=
  fillGrid (Z.to_nat resolution)
    (fun x z =>
       let nx := (ofNat x / (ofZ resolution - 1) * 2 - 1)%float in
       let nz := (ofNat z / (ofZ resolution - 1) * 2 - 1)%float in
       let distanceFromCenter := Math_sqrt (nx * nx + nz * nz)%float in
       let baseHeight := Math_max 0 (1 - distanceFromCenter * 0.8)%float in
       let slopeEffect := Math_max 0 (0.8 - nz * 0.3)%float in
       let baseHeight := (baseHeight * slopeEffect)%float in
       let height := (baseHeight * 0.8)%float in
       let height := (height + addTerrainFeatures env math nx nz profile * 0.3)%float in
       let height := (height + generateNoise env nx nz (difficulty profile) * 0.2)%float in
       Math_max 0.1 (Math_min 1.0 height))
    (Float32Array_new (Z.to_nat (resolution * resolution))).

Record Renderer := {
  heightData : option Float32Array;
  topographyLoader : TopographyDataLoader.Loader
}.

(** [constructor()]. *)
Definition new : Renderer :=
  {| heightData := None; topographyLoader := TopographyDataLoader.new |}.

Definition St : Type := Renderer * World.

(** A method of [this.topographyLoader] run from the renderer. *)
Definition onLoader {A} (m : M TopographyDataLoader.St A) : M St A :=
  fun '(r, w) =>
    let '(a, (l', w')) := m (topographyLoader r, w) in
    (a, ({| heightData := heightData r; topographyLoader := l' |}, w')).

Definition setHeightData (data : Float32Array) : M St unit :=
  modify (fun '(r, w) =>
    ({| heightData := Some data; topographyLoader := topographyLoader r |}, w)).

Definition undefinedName : string :=
  "TypeError: Cannot read properties of undefined (reading 'name')".

(** [profile.name], as the template literals of the three log lines read
    it: [profile] is [undefined] for a key that is not in the table. *)
Definition nameOf (profile : option Profile) : M St string :=
  match profile with
  | Some p => ret (name p)
  | None => throw undefinedName
  end.

(** [generateHeightMap(resortKey)].  The [try] block yields [Some] grid when
    it returns from the method; a [Float32Array] is an object, so
    [if (realElevationData)] always takes the branch. *)
Definition generateHeightMap (env : Env) (math : MathLib) (resortKey : string)
  : M St Float32Array :=
  let profile := TopographyDataLoader.own resortKey resortProfiles in
  let* returned :=
    tryCatch
      (let* realElevationData :=
         onLoader (TopographyDataLoader.fetchElevationData env resortKey
                     resolution terrainSize) in
       let* _ := nameOf profile in
       stmt setHeightData realElevationData then
       ret (Some realElevationData))
      (fun error => let* _ := nameOf profile in ret None) in
  match returned with
  | Some realElevationData => ret realElevationData
  | None =>
      let* _ := nameOf profile in
      match profile with
      | None => throw undefinedName
      | Some p =>
          let heightData := procedural env math p in
          stmt setHeightData heightData then ret heightData
      end
  end.

End TerrainRenderer.

(** * Properties *)

(** ** Facts about numbers *)

Section NumberFacts.
Implicit Types x y h : float.

Lemma SFcompare_antisym (x y : spec_float) c :
  SFcompare x y = Some c -> SFcompare y x = Some (CompOpp c).
Proof.
  destruct x as [sx|sx| |sx mx ex], y as [sy|sy| |sy my ey]; simpl;
    try (intros [= <-]; repeat match goal with b : bool |- _ => destruct b end;
         reflexivity); try discriminate.
  intros [= <-]. f_equal.
  destruct sx, sy; try reflexivity;
    rewrite (Z.compare_antisym ex ey); destruct (ex ?= ey)%Z; simpl; try reflexivity;
    rewrite (Pos.compare_cont_antisym); simpl; try reflexivity.
  all: destruct (Pos.compare_cont _ _ _); reflexivity.
Qed.

Lemma ltb_leb x y : (x <? y)%float = true -> (x <=? y)%float = true.
Proof.
  rewrite FloatAxioms.ltb_spec, FloatAxioms.leb_spec. unfold SFltb, SFleb.
  destruct (SFcompare _ _) as [[]|]; congruence.
Qed.

Lemma isNaN_spec x : isNaN x = true <-> Prim2SF x = S754_nan.
Proof.
  unfold isNaN, PrimFloat.is_nan. rewrite FloatAxioms.eqb_spec. unfold SFeqb.
  destruct (Prim2SF x) as [s|s| |s m e] eqn:E; simpl.
  - split; discriminate.
  - destruct s; split; discriminate.
  - split; reflexivity.
  - destruct s; rewrite Z.compare_refl, Pos.compare_cont_refl; simpl;
      split; discriminate.
Qed.

(** Of two numbers that are not [NaN], one is at most the other. *)
Lemma not_ltb_leb x y :
  isNaN x = false -> isNaN y = false ->
  (x <? y)%float = false -> (y <=? x)%float = true.
Proof.
  intros Hx Hy. rewrite FloatAxioms.ltb_spec, FloatAxioms.leb_spec.
  unfold SFltb, SFleb.
  destruct (SFcompare (Prim2SF x) (Prim2SF y)) as [c|] eqn:E.
  - rewrite (SFcompare_antisym _ _ _ E). destruct c; simpl; congruence.
  - exfalso.
    destruct (Prim2SF x) eqn:Ex, (Prim2SF y) eqn:Ey; simpl in E; try discriminate;
      try (apply isNaN_spec in Ex; congruence);
      try (apply isNaN_spec in Ey; congruence).
    all: repeat match goal with b : bool |- _ => destruct b end; discriminate.
Qed.

Lemma nan_add_l y : (nan + y)%float = nan.
Proof. apply Prim2SF_inj. rewrite FloatAxioms.add_spec. reflexivity. Qed.

(** [Math.max(0, Math.min(1, h))] is in the unit interval unless it is
    [NaN]. *)
Lemma clamp_range h :
  isNaN (TopographyDataLoader.clamp h) = true
  \/ inUnit (TopographyDataLoader.clamp h) = true.
Proof.
  unfold TopographyDataLoader.clamp.
  assert (H1 : isNaN 1%float = false) by reflexivity.
  destruct (isNaN h) eqn:Hh.
  { left. unfold Math_min. rewrite H1, Hh. reflexivity. }
  right.
  assert (Hm : isNaN (Math_min 1 h) = false /\ (Math_min 1 h <=? 1)%float = true).
  { unfold Math_min. rewrite H1, Hh. simpl.
    destruct (1 <? h)%float eqn:L1; [split; reflexivity|].
    destruct (h <? 1)%float eqn:L2.
    - split; [assumption | by apply ltb_leb].
    - change (isNegZero 1) with false.
      split; [assumption | by apply not_ltb_leb]. }
  destruct Hm as [Nm Lm]. revert Nm Lm. generalize (Math_min 1 h). intros m Nm Lm.
  unfold Math_max. change (isNaN 0) with false. rewrite Nm. simpl.
  unfold inUnit.
  destruct (0 <? m)%float eqn:L1.
  - rewrite (ltb_leb _ _ L1), Lm. reflexivity.
  - destruct (m <? 0)%float eqn:L2; reflexivity.
Qed.

End NumberFacts.

(** ** The generator *)

Lemma drawn_drawn a b w : drawn a (drawn b w) = drawn (b + a) w.
Proof. unfold drawn; simpl. f_equal. lia. Qed.

Lemma drawn_0 w : drawn 0 w = w.
Proof. destruct w; unfold drawn; simpl. f_equal. lia. Qed.

Section Generate.
Import TopographyDataLoader.
Context (env : Env) (profile : Profile) (resolution : Z) (k0 : nat).
Context (n : nat) (Hn : n = Z.to_nat resolution).

Lemma filled_step m :
  m < n * n ->
  <[m := sample env profile resolution k0 m]> (filled env profile resolution k0 m)
  = filled env profile resolution k0 (S m).
Proof.
  intros Hm. unfold filled. rewrite <- Hn.
  rewrite insert_app_r_alt; rewrite length_map, length_seq; [|lia].
  replace (n * n - m) with (S (n * n - S m)) by lia.
  rewrite Nat.sub_diag, seq_S, map_app, <- app_assoc. reflexivity.
Qed.

(** The inner loop fills row [z] from column [a] on. *)
Lemma row_loop (l : Loader) z len : forall a w,
  z < n -> a + len <= n -> randomCalls w = k0 + (z * n + a) ->
  forLoop (seq a len)
    (fun x elevationData =>
       let* r := random env in
       ret (<[(z * n + x)%nat :=
                clamp (shape env profile resolution x z + (r * 0.1 - 0.05))%float]>
              elevationData))
    (filled env profile resolution k0 (z * n + a)) (l, w)
  = (Return (filled env profile resolution k0 (z * n + a + len)), (l, drawn len w)).
Proof.
  induction len as [|len IH]; intros a w Hz Ha Hw.
  - simpl. rewrite Nat.add_0_r, drawn_0. reflexivity.
  - cbn [seq forLoop]. unfold bind at 1. unfold bind at 1.
    unfold random at 1. unfold ret at 1. cbn beta iota zeta.
    assert (E : clamp (shape env profile resolution a z
                       + (Math_random env (randomCalls w) * 0.1 - 0.05))%float
                = sample env profile resolution k0 (z * n + a)).
    { unfold sample, noise. rewrite <- Hn, Hw.
      replace ((z * n + a) `mod` n) with a.
      2:{ rewrite Nat.add_comm, Nat.Div0.mod_add. symmetry. apply Nat.mod_small. lia. }
      replace ((z * n + a) `div` n) with z.
      2:{ rewrite Nat.add_comm, Nat.div_add by lia. rewrite Nat.div_small; lia. }
      reflexivity. }
    assert (Hrow : S z * n <= n * n) by (apply Nat.mul_le_mono_r; lia).
    simpl in Hrow.
    rewrite E. rewrite filled_step by (clear -Hz Ha Hrow; lia).
    replace (S (z * n + a)) with (z * n + S a) by lia.
    rewrite IH; [|lia|lia|cbn [randomCalls]; rewrite Hw; lia].
    unfold drawn; cbn [posts polling randomCalls progressShown].
    replace (z * n + S a + len) with (z * n + a + S len) by lia.
    replace (S (randomCalls w) + len) with (randomCalls w + S len) by lia.
    reflexivity.
Qed.

(** The outer loop fills the rows from [z] on. *)
Lemma grid_loop (l : Loader) rows : forall z w,
  z + rows <= n -> randomCalls w = k0 + z * n ->
  forLoop (seq z rows)
    (fun z elevationData =>
       forLoop (seq 0 n)
         (fun x elevationData =>
            let* r := random env in
            ret (<[(z * n + x)%nat :=
                     clamp (shape env profile resolution x z + (r * 0.1 - 0.05))%float]>
                   elevationData))
         elevationData)
    (filled env profile resolution k0 (z * n)) (l, w)
  = (Return (filled env profile resolution k0 ((z + rows) * n)),
     (l, drawn (rows * n) w)).
Proof.
  induction rows as [|rows IH]; intros z w Hz Hw.
  - simpl. rewrite Nat.add_0_r, drawn_0. reflexivity.
  - cbn [seq forLoop]. unfold bind at 1.
    pose proof (row_loop l z n 0 w) as R. rewrite !Nat.add_0_r in R.
    rewrite R by lia. clear R.
    replace (z * n + n) with (S z * n) by lia.
    rewrite IH; [|lia|simpl; lia].
    rewrite drawn_drawn. do 3 f_equal; lia.
Qed.

End Generate.

(** For a non-negative side the generator returns the grid of [sample]s and
    draws one random number per cell. *)
Lemma generate_spec env resort resolution areaSize l w :
  (0 <= resolution)%Z ->
  TopographyDataLoader.generateSyntheticElevationData env resort resolution areaSize (l, w)
  = (Return (TopographyDataLoader.synthetic env (TopographyDataLoader.profileOf resort)
               resolution (randomCalls w)),
     (l, drawn (Z.to_nat resolution * Z.to_nat resolution) w)).
Proof.
  intros Hr. unfold TopographyDataLoader.generateSyntheticElevationData. cbn zeta.
  set (n := Z.to_nat resolution).
  replace (Z.to_nat (resolution * resolution)) with (n * n)
    by (unfold n; rewrite Z2Nat.inj_mul; lia).
  pose proof (grid_loop env (TopographyDataLoader.profileOf resort) resolution
                (randomCalls w) n eq_refl l n 0 w) as G.
  unfold TopographyDataLoader.filled in G. simpl in G. fold n in G.
  rewrite Nat.sub_0_r in G.
  unfold Float32Array_new. rewrite G by lia.
  rewrite Nat.sub_diag. simpl. rewrite app_nil_r. reflexivity.
Qed.

(** For a negative side the loops do not run and the array stays zero. *)
Lemma generate_negative env resort resolution areaSize l w :
  (resolution < 0)%Z ->
  TopographyDataLoader.generateSyntheticElevationData env resort resolution areaSize (l, w)
  = (Return (Float32Array_new (Z.to_nat (resolution * resolution))), (l, w)).
Proof.
  intros Hr. unfold TopographyDataLoader.generateSyntheticElevationData. cbn zeta.
  replace (Z.to_nat resolution) with 0 by lia. reflexivity.
Qed.

Lemma synthetic_length env profile resolution k0 :
  length (TopographyDataLoader.synthetic env profile resolution k0)
  = Z.to_nat resolution * Z.to_nat resolution.
Proof. unfold TopographyDataLoader.synthetic. by rewrite length_map, length_seq. Qed.

Lemma synthetic_range env profile resolution k0 :
  Forall (fun v => isNaN v = true \/ inUnit v = true)
         (TopographyDataLoader.synthetic env profile resolution k0).
Proof.
  unfold TopographyDataLoader.synthetic. apply Forall_forall. intros v Hv.
  apply list_elem_of_In, in_map_iff in Hv. destruct Hv as (i & <- & _).
  apply clamp_range.
Qed.

Lemma generate_total env resort resolution areaSize l w :
  TopographyDataLoader.generateSyntheticElevationData env resort resolution areaSize (l, w)
  = (Return (TopographyDataLoader.generated env resort resolution (randomCalls w)),
     (l, drawn (Z.to_nat resolution * Z.to_nat resolution) w)).
Proof.
  unfold TopographyDataLoader.generated.
  destruct (resolution <? 0)%Z eqn:E.
  - apply Z.ltb_lt in E. rewrite generate_negative by lia.
    replace (Z.to_nat resolution) with 0 by lia. by rewrite drawn_0.
  - apply Z.ltb_ge in E. by apply generate_spec.
Qed.

(** ** The client *)

Section ClientFacts.
Import MCPElevationClient.

Lemma aborted_set requestId flag c :
  aborted requestId (setAbortFlag requestId flag c) = flag.
Proof. unfold aborted, setAbortFlag; simpl. by rewrite lookup_insert_eq. Qed.

Lemma aborted_set_other requestId requestId' flag c :
  requestId' <> requestId ->
  aborted requestId (setAbortFlag requestId' flag c) = aborted requestId c.
Proof.
  intros Hne. unfold aborted, setAbortFlag; simpl.
  rewrite lookup_insert_ne by done.
  destruct (progressAbort c); [reflexivity|]. simpl. by rewrite lookup_empty.
Qed.

Lemma setAbortFlag_twice requestId flag flag' c :
  setAbortFlag requestId flag (setAbortFlag requestId flag' c)
  = setAbortFlag requestId flag c.
Proof. unfold setAbortFlag; simpl. by rewrite insert_insert_eq. Qed.

(** Whatever the gateway answers, [fetchElevationData] resolves to [null]:
    the object built by the bridge has the properties [elevationData] and
    [metadata], and the caller reads [elevation_data]. *)
Lemma client_fetch_effect env resortKey resolution areaSize c w :
  exists c' w',
    fetchElevationData env resortKey resolution areaSize (c, w)
    = (Return None, (c', w'))
    /\ randomCalls w' = S (randomCalls w)
    /\ polling w' = polling w ++ [requestIdOf env w]
    /\ aborted (requestIdOf env w) c' = negb (failed (gridReply env))
    /\ progressShown w' = false
    /\ length (posts w) < length (posts w').
Proof.
  unfold fetchElevationData, callTool, bridgeToHttpServer, handleResortInfo,
    initialize, listResources, requestIdOf.
  destruct c as [init res tbl]. destruct w as [ps pl rc shown].
  destruct init, (gridReply env) as [| | | | | |payload] eqn:G,
    (infoReply env) as [| | | | | |info] eqn:I;
    cbn -[setAbortFlag makeRequestId pretty String.append aborted];
    try rewrite G; try rewrite I;
    cbn -[setAbortFlag makeRequestId pretty String.append aborted];
    try (do 2 eexists; split; [reflexivity|];
         repeat split; rewrite ?setAbortFlag_twice;
         first [apply aborted_set | cbn [posts]; rewrite !length_app; simpl; lia]).
  all: destruct (truthy (get "elevation_data" payload));
    cbn -[setAbortFlag makeRequestId pretty String.append aborted];
    (do 2 eexists; split; [reflexivity|];
     repeat split; rewrite ?setAbortFlag_twice;
         first [apply aborted_set | cbn [posts]; rewrite !length_app; simpl; lia]).
Qed.

End ClientFacts.

(** ** The cache *)

Section CacheFacts.
Import TopographyDataLoader.
Implicit Types (m : Cache) (key : string).

Lemma Map_get_set_eq key v m : Map_get key (Map_set key v m) = Some v.
Proof.
  unfold Map_get. induction m as [|[k v'] m IH]; simpl.
  - by rewrite String.eqb_refl.
  - destruct (String.eqb k key) eqn:E; simpl; rewrite E; [reflexivity | exact IH].
Qed.

Lemma Map_get_set_ne key key' v m :
  key <> key' -> Map_get key (Map_set key' v m) = Map_get key m.
Proof.
  intros Hne. unfold Map_get. induction m as [|[k v'] m IH]; simpl.
  - destruct (String.eqb key' key) eqn:E; [|reflexivity].
    apply String.eqb_eq in E. congruence.
  - destruct (String.eqb k key') eqn:E; simpl.
    + apply String.eqb_eq in E. subst k.
      destruct (String.eqb key' key) eqn:E'; [|reflexivity].
      apply String.eqb_eq in E'. congruence.
    + destruct (String.eqb k key); [reflexivity | exact IH].
Qed.

Lemma Map_get_keys key m : Map_get key m = None <-> key ∉ map fst m.
Proof.
  unfold Map_get. induction m as [|[k v] m IH]; simpl.
  - split; [intros _; apply not_elem_of_nil | reflexivity].
  - rewrite not_elem_of_cons. destruct (String.eqb k key) eqn:E.
    + apply String.eqb_eq in E. split; [discriminate | intros [? _]; congruence].
    + apply String.eqb_neq in E. rewrite IH. split; [intros ?; split; congruence | tauto].
Qed.

Lemma Map_has_get key m : Map_has key m = false <-> Map_get key m = None.
Proof. unfold Map_has. destruct (Map_get key m); split; congruence. Qed.

(** [set] of a new key appends it; [set] of a present key keeps the keys. *)
Lemma Map_set_keys key v m : map fst (Map_set key v m) = addKey (map fst m) key.
Proof.
  induction m as [|[k v'] m IH]; cbn [Map_set map fst].
  - unfold addKey. rewrite bool_decide_eq_false_2; [reflexivity | apply not_elem_of_nil].
  - destruct (String.eqb k key) eqn:E; cbn [map fst].
    + apply String.eqb_eq in E. subst k. unfold addKey.
      rewrite bool_decide_eq_true_2; [reflexivity | apply list_elem_of_here].
    + apply String.eqb_neq in E. rewrite IH. unfold addKey.
      destruct (bool_decide (key ∈ map fst m)) eqn:D.
      * apply bool_decide_eq_true_1 in D.
        rewrite bool_decide_eq_true_2; [reflexivity | by apply list_elem_of_further].
      * apply bool_decide_eq_false_1 in D.
        rewrite bool_decide_eq_false_2; [reflexivity|].
        rewrite not_elem_of_cons. split; congruence.
Qed.

End CacheFacts.

(** ** The loader *)

Section LoaderFacts.
Import MCPElevationClient TopographyDataLoader.

(** The [try] block never delivers a grid: it leaves the cache alone and
    comes back with [null]. *)
Lemma tryMCPClient_null env resortKey resolution areaSize l w :
  exists c' w',
    tryMCPClient env resortKey resolution areaSize (l, w)
    = (Return None, ({| cache := cache l; mcpClient := Some c' |}, w'))
    /\ randomCalls w' = S (randomCalls w)
    /\ polling w' = polling w ++ [requestIdOf env w]
    /\ aborted (requestIdOf env w) c' = negb (failed (gridReply env))
    /\ progressShown w' = false
    /\ length (posts w) < length (posts w').
Proof.
  destruct l as [ch [c|]]; unfold tryMCPClient, tryCatch, bind, gets, onClient;
    cbn [mcpClient cache].
  - destruct (client_fetch_effect env resortKey resolution areaSize c w)
      as (c' & w' & E & H).
    unfold ret at 1. cbn [mcpClient cache]. rewrite E. eauto.
  - unfold modify at 1. cbn [mcpClient cache].
    set (ready := initialize (MCPElevationClient.new, w)).
    assert (R : exists c0, ready = (Return true, (c0, w))) by (eexists; reflexivity).
    destruct R as [c0 ->]. cbn [mcpClient cache].
    destruct (client_fetch_effect env resortKey resolution areaSize c0 w)
      as (c' & w' & E & H).
    rewrite E. eauto.
Qed.

(** A cached key is answered from the cache, and nothing else happens. *)
Lemma fetch_hit env resortKey resolution areaSize grid l w :
  Map_get (cacheKeyOf resortKey resolution areaSize) (cache l) = Some grid ->
  fetchElevationData env resortKey resolution areaSize (l, w)
  = (Return grid, (l, w)).
Proof.
  intros H. unfold fetchElevationData, bind, gets. cbn zeta.
  unfold Map_has. rewrite H. reflexivity.
Qed.

(** An unknown key that is not cached rejects, and nothing else happens. *)
Lemma fetch_unknown env resortKey resolution areaSize l w :
  Map_get (cacheKeyOf resortKey resolution areaSize) (cache l) = None ->
  own resortKey resortCoordinates = None ->
  fetchElevationData env resortKey resolution areaSize (l, w)
  = (Throw ("Unknown resort: " +:+ resortKey), (l, w)).
Proof.
  intros H Hown. unfold fetchElevationData, bind, gets. cbn zeta.
  unfold Map_has. rewrite H, Hown. reflexivity.
Qed.

(** A known key that is not cached gets the locally generated grid, which
    is stored under its key. *)
Lemma fetch_miss env resortKey resolution areaSize resort l w :
  own resortKey resortCoordinates = Some resort ->
  Map_get (cacheKeyOf resortKey resolution areaSize) (cache l) = None ->
  let grid := generated env resort resolution (S (randomCalls w)) in
  exists c' w',
    fetchElevationData env resortKey resolution areaSize (l, w)
    = (Return grid,
       ({| cache := Map_set (cacheKeyOf resortKey resolution areaSize) grid (cache l);
           mcpClient := Some c' |}, w'))
    /\ length (posts w) < length (posts w')
    /\ aborted (requestIdOf env w) c' = negb (failed (gridReply env)).
Proof.
  intros Hown H grid. unfold fetchElevationData. cbn zeta.
  unfold bind at 1. unfold gets at 1. cbn iota beta.
  unfold Map_has. rewrite H, Hown. unfold bind at 1.
  destruct (tryMCPClient_null env resortKey resolution areaSize l w)
    as (c' & w' & E & Hr & Hp & Ha & Hs & Hl).
  rewrite E. unfold bind at 1. rewrite generate_total.
  unfold bind, cacheSet, modify, ret. cbn [cache mcpClient].
  rewrite Hr. fold grid. do 2 eexists. split; [reflexivity|]. split; [|exact Ha].
  exact Hl.
Qed.

End LoaderFacts.

(** ** Repeated calls *)

Section Repeated.
Import MCPElevationClient TopographyDataLoader.

(** A call that returns a grid leaves it in the cache under its key. *)
Lemma fetch_result_cached env resortKey resolution areaSize s grid s' :
  fetchElevationData env resortKey resolution areaSize s = (Return grid, s') ->
  Map_get (cacheKeyOf resortKey resolution areaSize) (cache (fst s')) = Some grid.
Proof.
  destruct s as [l w]. intros H.
  destruct (Map_get (cacheKeyOf resortKey resolution areaSize) (cache l))
    as [g|] eqn:Hc.
  - rewrite (fetch_hit _ _ _ _ _ _ _ Hc) in H. by injection H as <- <-.
  - destruct (own resortKey resortCoordinates) as [resort|] eqn:Hown.
    + destruct (fetch_miss env _ resolution areaSize _ l w Hown Hc)
        as (c' & w' & E & _).
      rewrite E in H. injection H as <- <-. cbn [fst cache]. apply Map_get_set_eq.
    + rewrite (fetch_unknown _ _ _ _ _ _ Hc Hown) in H. discriminate.
Qed.

(** A call never removes an entry from the cache. *)
Lemma fetch_keeps_entries env resortKey resolution areaSize s key grid :
  Map_get key (cache (fst s)) = Some grid ->
  Map_get key
    (cache (fst (snd (fetchElevationData env resortKey resolution areaSize s))))
  = Some grid.
Proof.
  destruct s as [l w]. cbn [fst]. intros Hk.
  destruct (Map_get (cacheKeyOf resortKey resolution areaSize) (cache l))
    as [g|] eqn:Hc.
  - by rewrite (fetch_hit _ _ _ _ _ _ _ Hc).
  - destruct (own resortKey resortCoordinates) as [resort|] eqn:Hown.
    + destruct (fetch_miss env _ resolution areaSize _ l w Hown Hc)
        as (c' & w' & E & _).
      rewrite E. cbn [fst snd cache].
      rewrite Map_get_set_ne; [exact Hk | congruence].
    + by rewrite (fetch_unknown _ _ _ _ _ _ Hc Hown).
Qed.

Lemma fetchAll_cons c rest s :
  fetchAll (c :: rest) s
  = fetchAll rest
      (snd (fetchElevationData (call_env c) (call_resortKey c) (call_resolution c)
              (call_areaSize c) s)).
Proof.
  cbn [fetchAll]. unfold bind at 1. unfold tryCatch at 1. unfold bind at 1.
  destruct (fetchElevationData _ _ _ _ s) as [[g|e] s1]; reflexivity.
Qed.

(** Nor does any sequence of calls. *)
Lemma fetchAll_keeps_entries calls : forall s key grid,
  Map_get key (cache (fst s)) = Some grid ->
  Map_get key (cache (fst (snd (fetchAll calls s)))) = Some grid.
Proof.
  induction calls as [|c rest IH]; intros s key grid Hk; [exact Hk|].
  rewrite fetchAll_cons. apply IH. by apply fetch_keeps_entries.
Qed.

(** [clearCache()] empties the cache, after which a call for a known resort
    goes to the remote side again. *)
Lemma fetch_after_clear env resortKey resolution areaSize l w :
  knownResort resortKey = true ->
  let cleared := snd (clearCache (l, w)) in
  cache (fst cleared) = []
  /\ length (posts w)
     < length (posts (snd (snd (fetchElevationData env resortKey resolution areaSize
                                  cleared)))).
Proof.
  unfold knownResort. intros Hk.
  destruct (own resortKey resortCoordinates) as [resort|] eqn:Hown; [|discriminate].
  unfold clearCache, modify. cbn [snd fst cache]. split; [reflexivity|].
  destruct (fetch_miss env resortKey resolution areaSize resort
              {| cache := []; mcpClient := mcpClient l |} w Hown eq_refl)
    as (c' & w' & E & Hl & _).
  rewrite E. exact Hl.
Qed.

(** C5: once a [fetchElevationData] call has returned a grid, every later
    call with the same [(resortKey, resolution, areaSize)] returns that grid,
    whatever the remote side would answer then and whatever other calls were
    made in between, and leaves loader, client and page as they were: no
    request is sent, no poll loop is started.  The first grid may be the
    client's or the generated one; nothing but [clearCache()] removes it. *)
Theorem second_fetch_hits_cache env1 env2 resortKey resolution areaSize s grid s1
    (between : list Call) :
  fetchElevationData env1 resortKey resolution areaSize s = (Return grid, s1) ->
  let s2 := snd (fetchAll between s1) in
  fetchElevationData env2 resortKey resolution areaSize s2 = (Return grid, s2).
Proof.
  intros H s2. apply fetch_result_cached in H.
  apply (fetchAll_keeps_entries between) in H. fold s2 in H.
  destruct s2 as [l2 w2]. by apply fetch_hit.
Qed.

(** The first call on a fresh loader while the gateway answers HTTP 500, then
    a call for Zermatt and one for an unknown resort, then the first call
    again while the gateway is unreachable. *)
Lemma second_fetch_hits_cache_witness :
  let between :=
    [{| call_env := failing; call_resortKey := "zermatt";
        call_resolution := 2; call_areaSize := 500 |};
     {| call_env := offline; call_resortKey := "nowhere";
        call_resolution := 2; call_areaSize := 2000 |}] in
  exists grid s1,
    fetchElevationData failing "chamonix" 2 2000 fresh = (Return grid, s1)
    /\ fetchElevationData offline "chamonix" 2 2000 (snd (fetchAll between s1))
       = (Return grid, snd (fetchAll between s1)).
Proof.
  intros between. do 2 eexists. split; [vm_compute; reflexivity|].
  apply (second_fetch_hits_cache failing offline "chamonix" 2 2000 fresh _ _ between).
  vm_compute. reflexivity.
Defined.

(** The keys of the cache after a call for a known resort. *)
Lemma fetch_keys env resortKey resolution areaSize l w :
  knownResort resortKey = true ->
  exists grid s',
    fetchElevationData env resortKey resolution areaSize (l, w) = (Return grid, s')
    /\ map fst (cache (fst s'))
       = addKey (map fst (cache l)) (cacheKeyOf resortKey resolution areaSize).
Proof.
  unfold knownResort. intros Hknown.
  destruct (own resortKey resortCoordinates) as [resort|] eqn:Hown; [|discriminate].
  destruct (Map_get (cacheKeyOf resortKey resolution areaSize) (cache l))
    as [g|] eqn:Hc.
  - rewrite (fetch_hit _ _ _ _ _ _ _ Hc). do 2 eexists. split; [reflexivity|].
    cbn [fst]. unfold addKey. rewrite bool_decide_eq_true_2; [reflexivity|].
    destruct (decide (cacheKeyOf resortKey resolution areaSize ∈ map fst (cache l)))
      as [|Hn]; [assumption|].
    apply Map_get_keys in Hn. congruence.
  - destruct (fetch_miss env _ resolution areaSize _ l w Hown Hc)
      as (c' & w' & E & _).
    rewrite E. do 2 eexists. split; [reflexivity|].
    cbn [fst cache]. apply Map_set_keys.
Qed.

Lemma fetchAll_keys calls : forall l w,
  forallb (fun c => knownResort (call_resortKey c)) calls = true ->
  exists s',
    fetchAll calls (l, w) = (Return tt, s')
    /\ map fst (cache (fst s'))
       = foldl addKey (map fst (cache l)) (map cacheKeyOfCall calls).
Proof.
  induction calls as [|c calls IH]; intros l w Hk.
  - eexists. split; reflexivity.
  - cbn [forallb] in Hk. apply andb_true_iff in Hk as [Hk Hrest].
    destruct (fetch_keys (call_env c) (call_resortKey c) (call_resolution c)
                (call_areaSize c) l w Hk)
      as (grid & [l1 w1] & E & Hkeys).
    destruct (IH l1 w1 Hrest) as (s' & E' & Hkeys').
    exists s'. split.
    + rewrite fetchAll_cons, E. exact E'.
    + rewrite Hkeys'. cbn [map foldl]. cbn [fst] in Hkeys.
      unfold cacheKeyOfCall at 2. by rewrite Hkeys.
Qed.

End Repeated.

(** ** Calls on a fresh loader *)

Section FreshLoader.
Import MCPElevationClient TopographyDataLoader.

(** On a grid of side one the coordinate [x / (resolution - 1)] is [0 / 0]. *)
Lemma shape_side_one env profile : shape env profile 1 0 0 = nan.
Proof.
  unfold shape.
  replace (ofNat 0 / (ofZ 1 - 1) * 2 - 1)%float with nan by reflexivity.
  replace (Math_max 0 (1 - Math_sqrt (nan * nan + nan * nan) * steepness profile))%float
    with nan.
  - apply nan_add_l.
  - replace (Math_sqrt (nan * nan + nan * nan))%float with nan by reflexivity.
    replace (1 - nan * steepness profile)%float with nan; [reflexivity|].
    apply Prim2SF_inj.
    rewrite FloatAxioms.sub_spec, FloatAxioms.mul_spec. reflexivity.
Qed.

(** C1: a valid call whose grid has a single sample, which is [NaN] and so
    outside the unit interval: [fetchElevationData('chamonix', 1, 2000)] on a
    fresh loader, whatever the remote side answers. *)
Theorem side_one_grid_is_NaN env :
  exists s',
    fetchElevationData env "chamonix" 1 2000 fresh = (Return [nan], s')
    /\ inUnit nan = false.
Proof.
  destruct (fetch_miss env "chamonix" 1 2000 chamonix TopographyDataLoader.new
              World_init eq_refl eq_refl) as (c' & w' & E & _).
  eexists. split; [|reflexivity].
  unfold fresh. rewrite E. f_equal. f_equal.
  unfold generated, synthetic, sample. cbn [Z.ltb Z.compare seq map].
  change (Z.to_nat 1) with 1. cbn [Nat.mul Nat.add seq map].
  change (0 `mod` 1) with 0. change (0 `div` 1) with 0.
  rewrite shape_side_one, nan_add_l. reflexivity.
Qed.

(** For a known resort, a positive side and a fresh loader the call resolves
    to [resolution * resolution] samples, each in the unit interval or
    [NaN]. *)
Lemma fresh_fetch_shape env resortKey resolution areaSize :
  knownResort resortKey = true -> (0 < resolution)%Z ->
  exists grid s',
    fetchElevationData env resortKey resolution areaSize fresh = (Return grid, s')
    /\ Z.of_nat (length grid) = (resolution * resolution)%Z
    /\ Forall (fun v => isNaN v = true \/ inUnit v = true) grid.
Proof.
  unfold knownResort. intros Hk Hr.
  destruct (own resortKey resortCoordinates) as [resort|] eqn:Hown; [|discriminate].
  destruct (fetch_miss env resortKey resolution areaSize resort
              TopographyDataLoader.new World_init Hown eq_refl)
    as (c' & w' & E & _).
  do 2 eexists. split; [exact E|].
  unfold generated. replace (resolution <? 0)%Z with false by lia.
  split; [rewrite synthetic_length; lia | apply synthetic_range].
Qed.

(** C2: whatever payload a well-formed answer carries ([fourSamples], say,
    whose normalized samples are the last line), the client sets the abort
    flag of the request but resolves to [null], and the loader returns the
    locally generated grid: what the remote side sent never reaches the
    caller. *)
Theorem remote_grid_is_dropped env (payload : value) :
  let env' := withGrid (RpcContent payload) env in
  (exists c' w',
      MCPElevationClient.fetchElevationData env' "chamonix" 2 2000
        (MCPElevationClient.new, World_init) = (Return None, (c', w'))
      /\ aborted (requestIdOf env' World_init) c' = true)
  /\ (exists s',
         fetchElevationData env' "chamonix" 2 2000 fresh
         = (Return (synthetic env' (profileOf chamonix) 2 1), s'))
  /\ MCPNormalizer.normalizeElevationData
       (Some (Float32Array_from (get "elevation_data" fourSamples)))
     = Some [0; 0.33333333333333331; 0.66666666666666663; 1]%float.
Proof.
  intros env'. repeat split.
  - destruct (client_fetch_effect env' "chamonix" 2 2000 MCPElevationClient.new
                World_init) as (c' & w' & E & _ & _ & Ha & _).
    exists c', w'. split; [exact E | exact Ha].
  - destruct (fetch_miss env' "chamonix" 2 2000 chamonix TopographyDataLoader.new
                World_init eq_refl eq_refl) as (c' & w' & E & _).
    eexists. exact E.
Qed.

(** C3: an unknown location makes the call reject, and a known location
    with a side of [0] or [-1] resolves to a grid (empty, or one zero) that
    is stored in the cache; none of them resolves to [null]. *)
Theorem invalid_input_is_not_null env :
  fetchElevationData env "unknown_location" 64 2000 fresh
  = (Throw "Unknown resort: unknown_location", fresh)
  /\ (exists s',
         fetchElevationData env "chamonix" 0 2000 fresh = (Return [], s')
         /\ Map_get "chamonix_0_2000" (cache (fst s')) = Some [])
  /\ (exists s',
         fetchElevationData env "chamonix" (-1) 2000 fresh = (Return [0%float], s')
         /\ Map_get "chamonix_-1_2000" (cache (fst s')) = Some [0%float]).
Proof.
  repeat split.
  - destruct (fetch_miss env "chamonix" 0 2000 chamonix TopographyDataLoader.new
                World_init eq_refl eq_refl) as (c' & w' & E & _).
    eexists. split; [exact E | reflexivity].
  - destruct (fetch_miss env "chamonix" (-1) 2000 chamonix TopographyDataLoader.new
                World_init eq_refl eq_refl) as (c' & w' & E & _).
    eexists. split; [exact E | reflexivity].
Qed.

(** C4: the grid fetch fails with HTTP 500 and [get_resort_info] answers
    with a well-formed payload: [handleResortInfo] resolves to [null]
    because [this.generateSyntheticElevation] is not a function, and the
    loader returns the grid generated from its own profile table, whatever
    elevation profile the answer carried. *)
Theorem resort_info_is_unused env (info : value) :
  let env' := withGrid (HttpError 500) (withInfo (RpcContent info) env) in
  generateSyntheticElevation = None
  /\ (exists st',
         handleResortInfo env' "chamonix" (MCPElevationClient.new, World_init)
         = (Return VNull, st'))
  /\ (exists s',
         fetchElevationData env' "chamonix" 2 2000 fresh
         = (Return (synthetic env (profileOf chamonix) 2 1), s')).
Proof.
  intros env'. repeat split.
  - eexists. reflexivity.
  - destruct (fetch_miss env' "chamonix" 2 2000 chamonix TopographyDataLoader.new
                World_init eq_refl eq_refl) as (c' & w' & E & _).
    eexists. exact E.
Qed.

(** C9: eleven requests with distinct keys leave eleven entries in the
    cache, the first one among them: nothing bounds the size of the [Map]
    and nothing is ever evicted. *)
Theorem cache_exceeds_ten_entries env :
  exists s',
    fetchAll (elevenCalls env) fresh = (Return tt, s')
    /\ Map_size (cache (fst s')) = 11
    /\ Map_has "chamonix_2_2000" (cache (fst s')) = true.
Proof.
  destruct (fetchAll_keys (elevenCalls env) TopographyDataLoader.new World_init
              eq_refl) as (s' & E & Hkeys).
  exists s'. split; [exact E|].
  assert (K : map fst (cache (fst s'))
              = ["chamonix_2_2000"; "chamonix_3_2000"; "chamonix_4_2000";
                 "chamonix_5_2000"; "chamonix_6_2000"; "chamonix_7_2000";
                 "chamonix_8_2000"; "chamonix_9_2000"; "chamonix_10_2000";
                 "chamonix_11_2000"; "chamonix_12_2000"])
    by (rewrite Hkeys; vm_compute; reflexivity).
  split.
  - unfold Map_size. rewrite <- (length_map fst), K. reflexivity.
  - destruct (Map_has "chamonix_2_2000" (cache (fst s'))) eqn:Hh; [reflexivity|].
    apply Map_has_get, Map_get_keys in Hh. exfalso. apply Hh. rewrite K.
    apply list_elem_of_here.
Qed.

End FreshLoader.

(** ** The terminal fallback *)

Section Fallback.
Import MCPElevationClient TopographyDataLoader.




End Fallback.

(** ** The normalizers *)

Section Normalizers.

(** The client's normalizer on the inputs of its unit tests. *)
Lemma client_normalize_examples :
  MCPNormalizer.normalizeElevationData (Some [1000; 1500; 2000]%float)
  = Some [0; 0.5; 1]%float
  /\ MCPNormalizer.normalizeElevationData (Some [1500; 1500; 1500]%float)
     = Some [0.5; 0.5; 0.5]%float
  /\ MCPNormalizer.normalizeElevationData (Some []) = None
  /\ MCPNormalizer.normalizeElevationData None = None.
Proof. repeat split. Qed.

(** The client's normalizer: [null] exactly on a missing or empty input,
    otherwise as many samples as it was given, all [0.5] when the range is
    zero and [(sample - min) / (max - min)] elementwise when it is not. *)
Lemma client_normalize_spec first rest :
  let data := first :: rest in
  let '(lo, hi) := MCPNormalizer.minmax first rest in
  MCPNormalizer.normalizeElevationData (Some data)
  = Some (if (hi - lo =? 0)%float
          then repeat 0.5%float (length data)
          else map (fun x => ((x - lo) / (hi - lo))%float) data).
Proof.
  cbn zeta. unfold MCPNormalizer.normalizeElevationData.
  destruct (MCPNormalizer.minmax first rest) as [lo hi].
  destruct (hi - lo =? 0)%float; [|reflexivity].
  unfold fill, Float32Array_new. by rewrite repeat_length.
Qed.

Lemma client_normalize_length data out :
  MCPNormalizer.normalizeElevationData (Some data) = Some out ->
  length out = length data.
Proof.
  destruct data as [|first rest]; [discriminate|].
  pose proof (client_normalize_spec first rest) as H. cbn zeta in H.
  destruct (MCPNormalizer.minmax first rest) as [lo hi]. rewrite H.
  intros [= <-].
  destruct (hi - lo =? 0)%float; cbn [length map]; f_equal;
    [apply repeat_length | apply length_map].
Qed.


(** C8: on the empty array [TopographyDataLoader.normalizeElevationData]
    returns the empty array, where [MCPElevationClient.normalizeElevationData]
    returns [null]; on [[1000, 1500, 2000]] and [[1500, 1500, 1500]] the two
    agree. *)
Theorem loader_normalize_empty_is_empty_grid :
  LoaderNormalizer.normalizeElevationData [] = []
  /\ MCPNormalizer.normalizeElevationData (Some []) = None
  /\ LoaderNormalizer.normalizeElevationData [1000; 1500; 2000]%float
     = [0; 0.5; 1]%float
  /\ LoaderNormalizer.normalizeElevationData [1500; 1500; 1500]%float
     = [0.5; 0.5; 0.5]%float.
Proof. repeat split. Qed.

End Normalizers.

(** ** The poll loop *)

Section PollFacts.
Import MCPElevationClient Poll.

Lemma aborted_stays requestId requestId' c :
  aborted requestId c = true ->
  aborted requestId (setAbortFlag requestId' true c) = true.
Proof.
  intros H. destruct (decide (requestId' = requestId)) as [->|Hne].
  - apply aborted_set.
  - by rewrite aborted_set_other.
Qed.

(** Once the flag is set, an event issues no query, leaves the flag set and
    leaves a resolved loop resolved. *)
Lemma step_aborted requestId s e :
  aborted requestId (client s) = true ->
  aborted requestId (client (step requestId s e)) = true
  /\ queries (step requestId s e) = queries s
  /\ (phase s = Resolved -> phase (step requestId s e) = Resolved).
Proof.
  intros H. destruct e as [|r|requestId'|]; unfold step, continue;
    destruct (phase s) eqn:P; try destruct r;
    rewrite ?H; cbn [negb]; rewrite ?andb_false_r;
    cbn [client queries phase]; repeat split; intros;
    try assumption; try reflexivity; try discriminate; by apply aborted_stays.
Qed.

Lemma run_aborted requestId events : forall s,
  aborted requestId (client s) = true ->
  queries (run requestId s events) = queries s
  /\ (phase s = Resolved -> phase (run requestId s events) = Resolved).
Proof.
  unfold run. induction events as [|e events IH]; intros s H; [auto|].
  cbn [foldl]. destruct (step_aborted requestId s e H) as (Ha & Hq & Hp).
  destruct (IH _ Ha) as [Hq' Hp']. split; [congruence | auto].
Qed.

(** C7: once [this._progressAbort[requestId] = true] is written, the poll
    loop of [requestId] issues no further status query whatever happens
    next; a scheduled loop resolves when its timer fires and a loop awaiting
    a response resolves when the response settles.  The write changes
    nothing but the flag (so it is harmless when no loop is active: a
    resolved loop stays resolved), and writing it again changes nothing. *)
Theorem abort_stops_polling requestId s events :
  let s' := step requestId s (SetAbort requestId) in
  queries (run requestId s' events) = queries s
  /\ match phase s with
     | Scheduled => phase (step requestId s' Timer) = Resolved
     | InFlight => forall r, phase (step requestId s' (Response r)) = Resolved
     | Resolved => phase (run requestId s' events) = Resolved
     end
  /\ (phase s', pollCount s', queries s', indicator s')
     = (phase s, pollCount s, queries s, indicator s)
  /\ step requestId s' (SetAbort requestId) = s'.
Proof.
  intros s'.
  assert (Ha : aborted requestId (client s') = true) by apply aborted_set.
  destruct (run_aborted requestId events s' Ha) as [Hq Hp].
  split; [exact Hq|]. split; [|split].
  - destruct (phase s) eqn:P.
    + unfold step at 1. change (phase s') with (phase s). rewrite P, Ha. reflexivity.
    + intros r. unfold step at 1. change (phase s') with (phase s). rewrite P, Ha.
      destruct r; cbn [negb]; rewrite ?andb_false_r; reflexivity.
    + apply Hp. exact P.
  - reflexivity.
  - unfold s', step. cbn [client phase pollCount queries indicator].
    by rewrite setAbortFlag_twice.
Qed.

(** On [!response.ok] the bridge leaves the flag as it wrote it before the
    request, [false]. *)
Lemma bridge_http_error env status toolName args c w :
  gridReply env = HttpError status ->
  exists w',
    bridgeToHttpServer env toolName args (c, w)
    = (Return VNull, (setAbortFlag (requestIdOf env w) false c, w'))
    /\ polling w' = polling w ++ [requestIdOf env w]
    /\ progressShown w' = false.
Proof.
  intros G. unfold bridgeToHttpServer, handleResortInfo, requestIdOf.
  destruct c as [init res tbl]. destruct w as [ps pl rc shown].
  destruct (infoReply env) as [| | | | | |info] eqn:I;
    cbn -[setAbortFlag makeRequestId pretty String.append];
    rewrite G;
    cbn -[setAbortFlag makeRequestId pretty String.append];
    rewrite ?I;
    cbn -[setAbortFlag makeRequestId pretty String.append];
    (eexists; split; [reflexivity|]; split; reflexivity).
Qed.

(** A loop whose flag stays [false] keeps querying. *)
Lemma poll_goes_on requestId c :
  aborted requestId c = false ->
  let s := run requestId (start c false)
             [Timer; Response (ProgressNotOk 404); Timer;
              Response (ProgressOk 50); Timer] in
  queries s = 3 /\ phase s = InFlight /\ indicator s = true.
Proof.
  intros H. unfold run, start.
  do 6 (cbn -[aborted]; rewrite ?H). repeat split.
Qed.

(** C6: the grid fetch is answered with HTTP 500.  The bridge terminates
    (it resolves to [null]), the poll loop it started is still scheduled and
    the abort flag of its requestId is still [false]; the loop then goes on
    issuing status queries and puts the progress indicator back on the page.
    Only the success path writes the flag. *)
Theorem failed_fetch_keeps_polling env :
  let env' := withGrid (HttpError 500) env in
  let requestId := requestIdOf env' World_init in
  exists c' w',
    bridgeToHttpServer env' "fetch_elevation_grid"
      {| resort_key := "chamonix"; resolution := 2; area_size := 2000 |}
      (MCPElevationClient.new, World_init)
    = (Return VNull, (c', w'))
    /\ polling w' = [requestId]
    /\ progressShown w' = false
    /\ aborted requestId c' = false
    /\ let s := run requestId (start c' (progressShown w'))
                  [Timer; Response (ProgressNotOk 404); Timer;
                   Response (ProgressOk 50); Timer] in
       queries s = 3 /\ phase s = InFlight /\ indicator s = true.
Proof.
  intros env' requestId.
  destruct (bridge_http_error env' 500 "fetch_elevation_grid"
              {| resort_key := "chamonix"; resolution := 2; area_size := 2000 |}
              MCPElevationClient.new World_init eq_refl) as (w' & E & Hp & Hs).
  do 2 eexists. split; [exact E|]. split; [exact Hp|]. split; [exact Hs|].
  split; [apply aborted_set|].
  rewrite Hs. apply poll_goes_on, aborted_set.
Qed.

End PollFacts.

(** * Further properties *)

(** ** The client and the loader *)

Section FurtherLoader.
Import MCPElevationClient TopographyDataLoader.




(** X3: no sequence of [fetchElevationData] calls, whatever their arguments
    and outcomes, removes or replaces an entry of the cache. *)
Theorem cache_entries_stay calls s key grid :
  Map_get key (cache (fst s)) = Some grid ->
  Map_get key (cache (fst (snd (fetchAll calls s)))) = Some grid.
Proof. apply fetchAll_keeps_entries. Qed.

(** A cache holding one entry, then the eleven calls. *)
Lemma cache_entries_stay_witness :
  let s := ({| cache := [("stanton_8_1000", [0.25%float])]; mcpClient := None |},
            World_init) in
  Map_get "stanton_8_1000" (cache (fst (snd (fetchAll (elevenCalls offline) s))))
  = Some [0.25%float].
Proof.
  intros s. apply (cache_entries_stay (elevenCalls offline) s). reflexivity.
Defined.





(** X6: after [clearCache()] the cache is empty and a call for one of the
    five resorts sends a request to the gateway again. *)
Theorem clear_cache_forgets env resortKey resolution areaSize l w :
  knownResort resortKey = true ->
  let cleared := snd (clearCache (l, w)) in
  cache (fst cleared) = []
  /\ mcpClient (fst cleared) = mcpClient l
  /\ length (posts w)
     < length (posts (snd (snd (fetchElevationData env resortKey resolution areaSize
                                  cleared)))).
Proof.
  intros Hk cleared.
  destruct (fetch_after_clear env resortKey resolution areaSize l w Hk) as [H1 H2].
  split; [exact H1|]. split; [reflexivity | exact H2].
Qed.

Lemma clear_cache_forgets_witness :
  let s := ({| cache := [("chamonix_2_2000", [0.5; 0.5; 0.5; 0.5]%float)];
               mcpClient := None |}, World_init) in
  cache (fst (snd (clearCache s))) = []
  /\ 0 < length (posts (snd (snd (fetchElevationData offline "chamonix" 2 2000
                                    (snd (clearCache s)))))).
Proof.
  intros s.
  destruct (clear_cache_forgets offline "chamonix" 2 2000
              {| cache := [("chamonix_2_2000", [0.5; 0.5; 0.5; 0.5]%float)];
                 mcpClient := None |} World_init eq_refl) as (H1 & _ & H2).
  split; [exact H1 | exact H2].
Defined.

End FurtherLoader.

(** ** The bridge *)

Section FurtherBridge.
Import MCPElevationClient.

(** X7: [bridgeToHttpServer] never rejects.  It resolves to an object exactly
    when the answer carries a parsed payload with a truthy [elevation_data];
    that object holds the payload's [elevation_data] unchanged under
    [elevationData] and, as [metadata.request_id], the payload's own
    [request_id] or else the generated one, and the abort flag of the request
    is then set.  In every other case, the resort-info fallback included, it
    resolves to [null]. *)
Theorem bridge_resolves env toolName args c w :
  exists v c' w',
    bridgeToHttpServer env toolName args (c, w) = (Return v, (c', w'))
    /\ aborted (requestIdOf env w) c' = delivers (gridReply env) || negb (failed (gridReply env))
    /\ match gridReply env with
       | RpcContent payload =>
           if truthy (get "elevation_data" payload)
           then get "elevationData" v = get "elevation_data" payload
                /\ get "request_id" (get "metadata" v)
                   = orElse (get "request_id" payload) (VString (requestIdOf env w))
           else v = VNull
       | _ => v = VNull
       end.
Proof.
  unfold bridgeToHttpServer, handleResortInfo, requestIdOf.
  destruct c as [init res tbl]. destruct w as [ps pl rc shown].
  destruct (gridReply env) as [| | | | | |payload] eqn:G,
    (infoReply env) as [| | | | | |info] eqn:I;
    cbn -[setAbortFlag makeRequestId pretty String.append aborted];
    rewrite ?G, ?I;
    cbn -[setAbortFlag makeRequestId pretty String.append aborted];
    try (do 3 eexists; split; [reflexivity|]; split; [|reflexivity];
         rewrite ?setAbortFlag_twice; apply aborted_set).
  all: destruct (truthy (get "elevation_data" payload)) eqn:T;
    cbn -[setAbortFlag makeRequestId pretty String.append aborted];
    (do 3 eexists; split; [reflexivity|]; split;
       [rewrite ?setAbortFlag_twice; apply aborted_set|]);
    rewrite ?T; try reflexivity; split; reflexivity.
Qed.

(** The requests of a bridge call. *)
Lemma bridge_posts env toolName args c w :
  let resortKey := if String.eqb (resort_key args) "" then "whistler"
                   else resort_key args in
  let grid :=
    {| req_name := "fetch_elevation_grid"; req_resort_key := resortKey;
       req_resolution := Some (if (resolution args =? 0)%Z then 16%Z
                               else resolution args);
       req_area_size := Some (if (area_size args =? 0)%Z then 1000%Z
                              else area_size args);
       req_request_id := Some (requestIdOf env w) |} in
  let info :=
    {| req_name := "get_resort_info"; req_resort_key := resortKey;
       req_resolution := None; req_area_size := None; req_request_id := None |} in
  exists v c' w',
    bridgeToHttpServer env toolName args (c, w) = (Return v, (c', w'))
    /\ posts w' = posts w ++ grid :: (if thrown (gridReply env) then [info] else [])
    /\ polling w' = polling w ++ [requestIdOf env w]
    /\ req_resort_key grid <> ""
    /\ req_resolution grid <> Some 0%Z
    /\ req_area_size grid <> Some 0%Z.
Proof.
  cbn zeta.
  assert (Hk : (if String.eqb (resort_key args) "" then "whistler"
                else resort_key args) <> "").
  { destruct (String.eqb (resort_key args) "") eqn:E; [discriminate|].
    intros H. rewrite H in E. discriminate. }
  assert (Hr : Some (if (resolution args =? 0)%Z then 16%Z else resolution args)
               <> Some 0%Z).
  { destruct (resolution args =? 0)%Z eqn:E; [discriminate|].
    apply Z.eqb_neq in E. congruence. }
  assert (Ha : Some (if (area_size args =? 0)%Z then 1000%Z else area_size args)
               <> Some 0%Z).
  { destruct (area_size args =? 0)%Z eqn:E; [discriminate|].
    apply Z.eqb_neq in E. congruence. }
  revert Hk Hr Ha.
  unfold bridgeToHttpServer, handleResortInfo, requestIdOf.
  destruct c as [init res tbl]. destruct w as [ps pl rc shown].
  destruct (gridReply env) as [| | | | | |payload] eqn:G,
    (infoReply env) as [| | | | | |info] eqn:I;
    cbn -[setAbortFlag makeRequestId pretty String.append aborted];
    rewrite ?G, ?I;
    cbn -[setAbortFlag makeRequestId pretty String.append aborted];
    try destruct (truthy (get "elevation_data" payload));
    cbn -[setAbortFlag makeRequestId pretty String.append aborted];
    intros Hk Hr Ha;
    (do 3 eexists; split; [reflexivity|]);
    cbn [posts polling]; rewrite <- ?app_assoc; auto.
Qed.

(** X8: whatever tool is named, the bridge sends one [fetch_elevation_grid]
    request carrying the generated requestId, an empty resort key replaced by
    [whistler], a zero resolution by 16 and a zero area size by 1000; it
    starts the poll loop of that requestId; and it sends a second request,
    [get_resort_info] for the same resort, exactly when the first exchange
    threw (not when the answer merely had no content). *)
Theorem bridge_requests env toolName args c w :
  let resortKey := if String.eqb (resort_key args) "" then "whistler"
                   else resort_key args in
  let grid :=
    {| req_name := "fetch_elevation_grid"; req_resort_key := resortKey;
       req_resolution := Some (if (resolution args =? 0)%Z then 16%Z
                               else resolution args);
       req_area_size := Some (if (area_size args =? 0)%Z then 1000%Z
                              else area_size args);
       req_request_id := Some (requestIdOf env w) |} in
  let info :=
    {| req_name := "get_resort_info"; req_resort_key := resortKey;
       req_resolution := None; req_area_size := None; req_request_id := None |} in
  exists v c' w',
    bridgeToHttpServer env toolName args (c, w) = (Return v, (c', w'))
    /\ posts w' = posts w ++ grid :: (if thrown (gridReply env) then [info] else [])
    /\ polling w' = polling w ++ [requestIdOf env w]
    /\ req_resort_key grid <> ""
    /\ req_resolution grid <> Some 0%Z
    /\ req_area_size grid <> Some 0%Z.
Proof. apply bridge_posts. Qed.

End FurtherBridge.

(** ** The poll loop *)

Section FurtherPoll.
Import MCPElevationClient Poll.

Lemma step_withinBudget requestId s e :
  withinBudget s -> withinBudget (step requestId s e).
Proof.
  unfold withinBudget, maxPolls. intros [Hc Hq].
  destruct e as [|r|requestId'|]; unfold step, continue;
    destruct (phase s) eqn:P; try destruct r;
    repeat match goal with
           | |- context [if ?b then _ else _] => destruct b eqn:?
           end;
    cbn [phase pollCount queries]; rewrite ?P;
    repeat match goal with
           | H : (_ && _) = true |- _ => apply andb_true_iff in H as [? ?]
           | H : (_ <? _) = true |- _ => apply Nat.ltb_lt in H
           end;
    unfold maxPolls in *; split; lia.
Qed.

(** X9: a poll loop issues at most 601 status queries, the first one and 600
    repeats, whatever the progress endpoint answers, whenever its timers
    fire and whether or not it is ever aborted. *)
Theorem poll_loop_query_budget requestId c shown events :
  queries (run requestId (start c shown) events) <= 601.
Proof.
  assert (H : withinBudget (run requestId (start c shown) events)).
  { unfold run. generalize (start c shown) (conj (Nat.le_0_l maxPolls)
                              (Nat.le_0_l 0) : withinBudget (start c shown)).
    induction events as [|e events IH]; intros s Hs; [exact Hs|].
    cbn [foldl]. apply IH. by apply step_withinBudget. }
  destruct H as [Hc Hq]. unfold maxPolls in Hc.
  destruct (phase _); lia.
Qed.

(** A resolved loop stays resolved and issues nothing. *)
Lemma resolved_stays requestId events : forall s,
  phase s = Resolved ->
  phase (run requestId s events) = Resolved
  /\ queries (run requestId s events) = queries s.
Proof.
  unfold run. induction events as [|e events IH]; intros s P; [auto|].
  cbn [foldl].
  assert (H : phase (step requestId s e) = Resolved
              /\ queries (step requestId s e) = queries s)
    by (destruct e; unfold step; rewrite ?P; auto).
  destruct H as [P' Q']. destruct (IH _ P') as [P'' Q'']. split; congruence.
Qed.

Lemma rounds_of_polling requestId replies : forall s,
  aborted requestId (client s) = false ->
  phase s = Scheduled -> pollCount s <= maxPolls ->
  forallb incomplete replies = true ->
  let s' := run requestId s (rounds replies) in
  queries s' = queries s + Nat.min (length replies) (S (maxPolls - pollCount s))
  /\ phase s' = if (length replies <=? maxPolls - pollCount s)%nat
                then Scheduled else Resolved.
Proof.
  induction replies as [|r replies IH]; intros s Ha P Hc Hr.
  - cbn. split; [lia | exact P].
  - cbn [forallb] in Hr. apply andb_true_iff in Hr as [Hr Hrest].
    cbn zeta.
    change (run requestId s (rounds (r :: replies)))
      with (run requestId (step requestId (step requestId s Timer) (Response r))
              (rounds replies)).
    set (s1 := step requestId s Timer).
    assert (E1 : s1 = {| client := client s; phase := InFlight;
                         pollCount := pollCount s; queries := S (queries s);
                         indicator := indicator s |})
      by (unfold s1, step; rewrite P, Ha; reflexivity).
    set (s2 := step requestId s1 (Response r)).
    destruct (pollCount s <? maxPolls)%nat eqn:L.
    + apply Nat.ltb_lt in L.
      assert (E2 : phase s2 = Scheduled /\ pollCount s2 = S (pollCount s)
                   /\ queries s2 = S (queries s) /\ client s2 = client s).
      { unfold s2. rewrite E1. unfold step, continue.
        cbn [phase client pollCount queries indicator]. rewrite Ha.
        replace (pollCount s <? maxPolls)%nat with true
          by (symmetry; by apply Nat.ltb_lt).
        destruct r as [p| |]; cbn [incomplete] in Hr; rewrite ?Hr; auto. }
      destruct E2 as (P2 & C2 & Q2 & K2).
      destruct (IH s2) as [HQ HP]; [by rewrite K2 | exact P2 | lia | exact Hrest |].
      cbn zeta in HQ, HP. rewrite HQ, HP, Q2, C2. cbn [length]. split.
      * lia.
      * destruct (length replies <=? maxPolls - S (pollCount s))%nat eqn:A,
          (S (length replies) <=? maxPolls - pollCount s)%nat eqn:B;
          try reflexivity;
          [apply Nat.leb_le in A; apply Nat.leb_gt in B
          | apply Nat.leb_gt in A; apply Nat.leb_le in B]; lia.
    + apply Nat.ltb_ge in L.
      assert (E2 : phase s2 = Resolved /\ queries s2 = S (queries s)).
      { unfold s2. rewrite E1. unfold step, continue.
        cbn [phase client pollCount queries indicator]. rewrite Ha.
        replace (pollCount s <? maxPolls)%nat with false
          by (symmetry; by apply Nat.ltb_ge).
        destruct r as [p| |]; rewrite ?andb_false_r; auto. }
      destruct E2 as [P2 Q2].
      destruct (resolved_stays requestId (rounds replies) s2 P2) as [P3 Q3].
      rewrite P3, Q3, Q2. cbn [length]. split.
      * lia.
      * replace (S (length replies) <=? maxPolls - pollCount s)%nat with false;
          [reflexivity|]. symmetry. apply Nat.leb_gt. lia.
Qed.

(** X10: a loop that is never aborted and never told that the progress
    reached 100 (every answer is a lower progress, a non-OK status or a
    failure) issues one query per answer up to the 601st, and resolves right
    after the 601st answer; before that it is still scheduled. *)
Theorem poll_loop_times_out requestId c shown replies :
  aborted requestId c = false ->
  forallb incomplete replies = true ->
  let s := run requestId (start c shown) (rounds replies) in
  queries s = Nat.min (length replies) 601
  /\ phase s = if (length replies <=? 600)%nat then Scheduled else Resolved.
Proof.
  intros Ha Hr.
  exact (rounds_of_polling requestId replies (start c shown) Ha eq_refl
           (Nat.le_0_l _) Hr).
Qed.

(** 601 answers of HTTP 404 to the loop of a fresh client. *)
Lemma poll_loop_times_out_witness :
  let s := run "req_1_2" (start MCPElevationClient.new false)
             (rounds (repeat (ProgressNotOk 404) 601)) in
  queries s = 601 /\ phase s = Resolved.
Proof.
  exact (poll_loop_times_out "req_1_2" MCPElevationClient.new false
           (repeat (ProgressNotOk 404) 601) eq_refl eq_refl).
Defined.

(** X11: when the answer to the grid request is a parsed payload, the poll
    loop that [fetchElevationData] started never issues a status query if its
    first timer fires after the call has finished, whatever happens later. *)
Theorem delivered_answer_silences_poll_loop env payload resortKey resolution
    areaSize c w events :
  let env' := withGrid (RpcContent payload) env in
  let requestId := requestIdOf env' w in
  let st := snd (MCPElevationClient.fetchElevationData env' resortKey resolution
                   areaSize (c, w)) in
  polling (snd st) = polling w ++ [requestId]
  /\ queries (run requestId (start (fst st) (progressShown (snd st))) events) = 0.
Proof.
  intros env' requestId st.
  destruct (client_fetch_effect env' resortKey resolution areaSize c w)
    as (c' & w' & E & _ & Hp & Ha & _).
  unfold st. rewrite E. cbn [fst snd]. split; [exact Hp|].
  apply (run_aborted requestId events (start c' (progressShown w'))). exact Ha.
Qed.

End FurtherPoll.

(** ** The normalizers *)

Section FurtherNormalizers.

Lemma sub_diag x : isFinite x = true -> (x - x)%float = 0%float.
Proof.
  unfold isFinite. intros H. apply Prim2SF_inj. rewrite FloatAxioms.sub_spec.
  destruct (Prim2SF x) as [s|s| |s m e]; try discriminate.
  - destruct s; reflexivity.
  - unfold SF64sub, SFsub. rewrite Z.sub_diag. reflexivity.
Qed.

Lemma ltb_irrefl x : (x <? x)%float = false.
Proof.
  rewrite FloatAxioms.ltb_spec. unfold SFltb.
  destruct (Prim2SF x) as [s|s| |s m e]; simpl; try reflexivity.
  - destruct s; reflexivity.
  - destruct s; rewrite Z.compare_refl, Pos.compare_cont_refl; reflexivity.
Qed.

Lemma finite_not_NaN x : isFinite x = true -> isNaN x = false.
Proof.
  unfold isFinite. intros H. destruct (isNaN x) eqn:N; [|reflexivity].
  apply isNaN_spec in N. rewrite N in H. discriminate.
Qed.

Lemma Math_min_same x : isFinite x = true -> Math_min x x = x.
Proof.
  intros H. unfold Math_min. rewrite (finite_not_NaN x H), ltb_irrefl. simpl.
  by destruct (isNegZero x).
Qed.

Lemma Math_max_same x : isFinite x = true -> Math_max x x = x.
Proof.
  intros H. unfold Math_max. rewrite (finite_not_NaN x H), ltb_irrefl. simpl.
  by destruct (isNegZero x).
Qed.

Lemma Math_min_infinity x : isFinite x = true -> Math_min infinity x = x.
Proof.
  intros H. unfold Math_min. rewrite (finite_not_NaN x H).
  change (isNaN infinity) with false. simpl.
  rewrite !FloatAxioms.ltb_spec. unfold SFltb, isFinite in *.
  destruct (Prim2SF x) as [s|s| |s m e]; try discriminate; reflexivity.
Qed.

Lemma Math_max_neg_infinity x : isFinite x = true -> Math_max neg_infinity x = x.
Proof.
  intros H. unfold Math_max. rewrite (finite_not_NaN x H).
  change (isNaN neg_infinity) with false. simpl.
  rewrite !FloatAxioms.ltb_spec. unfold SFltb, isFinite in *.
  destruct (Prim2SF x) as [s|s| |s m e]; try discriminate; reflexivity.
Qed.

(** X12: [MCPElevationClient.normalizeElevationData] returns [null] exactly
    for an empty array, and otherwise an array of the same length as its
    input. *)
Theorem client_normalize_null_or_same_length data :
  match MCPNormalizer.normalizeElevationData (Some data) with
  | None => data = []
  | Some out => data <> [] /\ length out = length data
  end.
Proof.
  destruct (MCPNormalizer.normalizeElevationData (Some data)) as [out|] eqn:E.
  - split; [by destruct data | by apply client_normalize_length].
  - destruct data as [|first rest]; [reflexivity|].
    pose proof (client_normalize_spec first rest) as H. cbn zeta in H.
    destruct (MCPNormalizer.minmax first rest). congruence.
Qed.

Lemma client_flat v k :
  isFinite v = true ->
  MCPNormalizer.normalizeElevationData (Some (repeat v (S k)))
  = Some (repeat 0.5%float (S k)).
Proof.
  intros H.
  assert (M : MCPNormalizer.minmax v (repeat v k) = (v, v)).
  { unfold MCPNormalizer.minmax. induction k as [|k IH]; [reflexivity|].
    cbn [repeat foldl]. unfold MCPNormalizer.scan at 2.
    rewrite ltb_irrefl. exact IH. }
  pose proof (client_normalize_spec v (repeat v k)) as S. cbn zeta in S.
  rewrite M in S. cbn [repeat]. rewrite S, (sub_diag v H).
  change (0 =? 0)%float with true. cbn [length]. by rewrite repeat_length.
Qed.

Lemma loader_flat v k :
  isFinite v = true ->
  LoaderNormalizer.normalizeElevationData (repeat v (S k)) = repeat 0.5%float (S k).
Proof.
  intros H.
  assert (M : LoaderNormalizer.minmax (repeat v (S k)) = (v, v)).
  { unfold LoaderNormalizer.minmax. cbn [repeat foldl].
    unfold LoaderNormalizer.scan at 2.
    rewrite (Math_min_infinity v H), (Math_max_neg_infinity v H).
    induction k as [|k IH]; [reflexivity|].
    cbn [repeat foldl]. unfold LoaderNormalizer.scan at 2.
    rewrite (Math_min_same v H), (Math_max_same v H). exact IH. }
  unfold LoaderNormalizer.normalizeElevationData. rewrite M, (sub_diag v H).
  change (0 =? 0)%float with true. unfold fill, Float32Array_new.
  by rewrite !repeat_length.
Qed.

(** X13: on a flat array, any positive number of copies of one finite
    sample, both normalizers return as many samples, all [0.5]; the division
    by the zero range is not made. *)
Theorem flat_input_normalizes_to_half v k :
  isFinite v = true ->
  MCPNormalizer.normalizeElevationData (Some (repeat v (S k)))
  = Some (repeat 0.5%float (S k))
  /\ LoaderNormalizer.normalizeElevationData (repeat v (S k))
     = repeat 0.5%float (S k).
Proof. intros H. split; [by apply client_flat | by apply loader_flat]. Qed.

(** Three samples of 1500. *)
Lemma flat_input_normalizes_to_half_witness :
  MCPNormalizer.normalizeElevationData (Some [1500; 1500; 1500]%float)
  = Some [0.5; 0.5; 0.5]%float
  /\ LoaderNormalizer.normalizeElevationData [1500; 1500; 1500]%float
     = [0.5; 0.5; 0.5]%float.
Proof. exact (flat_input_normalizes_to_half 1500%float 2 eq_refl). Defined.

End FurtherNormalizers.

(** ** Resources *)

Section FurtherResources.
Import MCPElevationClient.

Lemma takeWord_isWord s : isWord s = true -> takeWord s = s.
Proof.
  induction s as [|c s IH]; [reflexivity|]. cbn [isWord takeWord].
  intros H. apply andb_true_iff in H as [Hc Hs]. rewrite Hc. f_equal. by apply IH.
Qed.

Lemma takeWord_is_word s : isWord (takeWord s) = true.
Proof.
  induction s as [|c s IH]; [reflexivity|]. cbn [takeWord].
  destruct (isWordChar c) eqn:Hc; [|reflexivity]. cbn [isWord]. by rewrite Hc, IH.
Qed.

Lemma matchResource_here s m : matchHere s = Some m -> matchResource s = Some m.
Proof. intros H. destruct s; cbn [matchResource]; by rewrite H. Qed.

(** A match captures a non-empty run of word characters. *)
Lemma matchHere_word s t resortKey :
  matchHere s = Some (t, resortKey) -> resortKey <> "" /\ isWord resortKey = true.
Proof.
  unfold matchHere. destruct (dropPrefix "elevation://" s) as [rest|]; [|discriminate].
  assert (H : forall t', match dropPrefix (resourceTypeName t' +:+ "/") rest with
                         | Some tail => match takeWord tail with
                                        | EmptyString => None
                                        | k => Some (t', k)
                                        end
                         | None => None
                         end = Some (t, resortKey) ->
                         resortKey <> "" /\ isWord resortKey = true).
  { intros t'. destruct (dropPrefix _ rest) as [tail|]; [|discriminate].
    pose proof (takeWord_is_word tail) as W.
    destruct (takeWord tail) as [|c k]; [discriminate|].
    intros [= <- <-]. split; [discriminate | exact W]. }
  cbn zeta. destruct (dropPrefix (resourceTypeName Grid +:+ "/") rest) as [tail|] eqn:G.
  - pose proof (H Grid) as HG. rewrite G in HG.
    destruct (takeWord tail) as [|c k] eqn:T.
    + apply (H Metadata).
    + exact HG.
  - apply (H Metadata).
Qed.

Lemma matchResource_word uri t resortKey :
  matchResource uri = Some (t, resortKey) ->
  resortKey <> "" /\ isWord resortKey = true.
Proof.
  induction uri as [|c uri IH]; cbn [matchResource].
  - destruct (matchHere "") as [m|] eqn:E; [|discriminate].
    intros [= ->]. by apply (matchHere_word "" t resortKey).
  - destruct (matchHere (String c uri)) as [m|] eqn:E; [|exact IH].
    intros [= ->]. by apply (matchHere_word (String c uri) t resortKey).
Qed.

(** X14: the URI built from a resource type and a non-empty resort key of
    word characters is parsed back by [readResource] into that type and that
    key. *)
Theorem resource_uri_round_trip t resortKey :
  resortKey <> "" -> isWord resortKey = true ->
  matchResource (resourceUri t resortKey) = Some (t, resortKey).
Proof.
  intros Hne Hw. apply matchResource_here. unfold resourceUri, matchHere.
  destruct t; cbv -[takeWord]; rewrite (takeWord_isWord _ Hw);
    by destruct resortKey.
Qed.

Lemma resource_uri_round_trip_witness :
  matchResource "elevation://metadata/stanton" = Some (Metadata, "stanton").
Proof.
  apply (resource_uri_round_trip Metadata "stanton"); [discriminate | reflexivity].
Defined.

(** X15: [readResource] rejects a URI in which the pattern matches nowhere
    with [Invalid resource URI: ...], without sending anything; for any other
    URI it resolves, and the request it sends is [fetch_elevation_grid] for
    the captured resort key, at resolution 128 and area size 2000 for a grid
    URI and at the bridge's defaults 16 and 1000 for a metadata URI. *)
Theorem readResource_outcome env uri c w :
  match matchResource uri with
  | None =>
      readResource env uri (c, w)
      = (Throw ("Invalid resource URI: " +:+ uri), (c, w))
  | Some (t, resortKey) =>
      exists v c' w' more,
        readResource env uri (c, w) = (Return v, (c', w'))
        /\ posts w'
           = posts w
             ++ {| req_name := "fetch_elevation_grid"; req_resort_key := resortKey;
                   req_resolution :=
                     Some (match t with Grid => 128 | Metadata => 16 end)%Z;
                   req_area_size :=
                     Some (match t with Grid => 2000 | Metadata => 1000 end)%Z;
                   req_request_id := Some (requestIdOf env w) |} :: more
  end.
Proof.
  unfold readResource.
  destruct (matchResource uri) as [[t resortKey]|] eqn:E; [|reflexivity].
  destruct (matchResource_word uri t resortKey E) as [Hne _].
  assert (Hk : String.eqb resortKey "" = false) by by apply String.eqb_neq.
  destruct t.
  - destruct (bridge_posts env "get_elevation_data"
                {| resort_key := resortKey; resolution := 128; area_size := 2000 |}
                c w) as (v & c' & w' & B & Hp & _).
    cbn [resort_key resolution area_size] in Hp. rewrite Hk in Hp.
    exists v, c', w'. eexists. split; [|exact Hp].
    unfold tryCatch, callTool, tryCatch. by rewrite B.
  - destruct (bridge_posts env "get_resort_info"
                {| resort_key := resortKey; resolution := 0; area_size := 0 |}
                c w) as (v & c' & w' & B & Hp & _).
    cbn [resort_key resolution area_size] in Hp. rewrite Hk in Hp.
    exists v, c', w'. eexists. split; [|exact Hp].
    unfold tryCatch, callTool, tryCatch. by rewrite B.
Qed.

End FurtherResources.

(** ** Cache keys *)

Section FurtherKeys.
Import TopographyDataLoader.

Lemma append_assoc3 (a b c : string) : (a +:+ b) +:+ c = a +:+ b +:+ c.
Proof.
  induction a as [|x a IH]; [reflexivity|]. exact (f_equal (String x) IH).
Qed.

Lemma noUnderscore_app a b :
  noUnderscore (a +:+ b) = noUnderscore a && noUnderscore b.
Proof.
  induction a as [|x a IH]; [reflexivity|].
  change (noUnderscore (String x a +:+ b))
    with (negb (Ascii.eqb x (Ascii.ascii_of_nat 95)) && noUnderscore (a +:+ b)).
  rewrite IH. apply andb_assoc.
Qed.

Lemma pretty_N_go_noUnderscore x : forall s,
  noUnderscore s = true -> noUnderscore (pretty_N_go x s) = true.
Proof.
  induction (N.lt_wf_0 x) as [x _ IH]; intros s Hs.
  assert (x = 0 \/ 0 < x)%N as [->|Hx] by lia.
  - by rewrite pretty_N_go_0.
  - rewrite pretty_N_go_step by done. apply IH.
    { by apply N.div_lt. }
    cbn [noUnderscore]. rewrite Hs, andb_true_r.
    unfold pretty_N_char. by repeat case_match.
Qed.

Lemma pretty_Z_noUnderscore (z : Z) : noUnderscore (pretty z) = true.
Proof.
  assert (HN : forall n : N, noUnderscore (pretty n) = true).
  { intros n. unfold pretty, pretty_N. case_decide; [reflexivity|].
    by apply pretty_N_go_noUnderscore. }
  destruct z as [|p|p]; [reflexivity | apply HN |].
  unfold pretty, pretty_Z. rewrite noUnderscore_app.
  apply andb_true_iff. split; [reflexivity | apply HN].
Qed.

Lemma append_cons x (a s : string) : String x a +:+ s = String x (a +:+ s).
Proof. reflexivity. Qed.

Lemma append_nil (s : string) : "" +:+ s = s.
Proof. reflexivity. Qed.

(** Two strings that end in an underscore followed by an underscore-free
    field are split alike. *)
Lemma split_last_field a : forall b t t',
  noUnderscore t = true -> noUnderscore t' = true ->
  a +:+ "_" +:+ t = b +:+ "_" +:+ t' -> a = b /\ t = t'.
Proof.
  induction a as [|x a IH]; intros b t t' Ht Ht' E.
  - destruct b as [|y b]; rewrite ?append_cons, ?append_nil in E.
    + by injection E as ->.
    + injection E as _ ->. rewrite noUnderscore_app in Ht.
      cbn in Ht. by rewrite andb_false_r in Ht.
  - destruct b as [|y b]; rewrite ?append_cons, ?append_nil in E.
    + injection E as _ <-. rewrite noUnderscore_app in Ht'.
      cbn in Ht'. by rewrite andb_false_r in Ht'.
    + injection E as -> E.
      rewrite <- (append_nil t), <- (append_nil t'), <- !append_cons in E.
      destruct (IH b t t' Ht Ht' E) as [-> ->]. done.
Qed.

(** X17: the cache key determines the call: two calls that differ in the
    resort key, the resolution or the area size never share a cache entry. *)
Theorem cache_key_is_injective resortKey1 resolution1 areaSize1
    resortKey2 resolution2 areaSize2 :
  cacheKeyOf resortKey1 resolution1 areaSize1
  = cacheKeyOf resortKey2 resolution2 areaSize2 ->
  resortKey1 = resortKey2 /\ resolution1 = resolution2 /\ areaSize1 = areaSize2.
Proof.
  assert (K : forall k r a, cacheKeyOf k r a
                           = (k +:+ "_" +:+ pretty r) +:+ "_" +:+ pretty a).
  { intros k r a. unfold cacheKeyOf. by rewrite append_assoc3. }
  rewrite !K. intros E.
  apply split_last_field in E as [E Ea]; [|apply pretty_Z_noUnderscore..].
  apply split_last_field in E as [Ek Er]; [|apply pretty_Z_noUnderscore..].
  split; [exact Ek|]. split; by apply (inj pretty).
Qed.

Lemma cache_key_is_injective_witness :
  "chamonix" = "chamonix" /\ 64%Z = 64%Z /\ 2000%Z = 2000%Z.
Proof.
  exact (cache_key_is_injective "chamonix" 64 2000 "chamonix" 64 2000 eq_refl).
Defined.

End FurtherKeys.

(** ** Interpolation *)

Section FurtherInterpolation.

Lemma weigh_first_close x z pre q post : forall totalWeight weightedSum,
  Forall (fun p => (distanceTo x z p <? 0.1)%float = false) pre ->
  (distanceTo x z q <? 0.1)%float = true ->
  weigh x z (pre ++ q :: post) totalWeight weightedSum = elevation q.
Proof.
  induction pre as [|p pre IH]; intros tw ws Hpre Hq; cbn [app weigh].
  - by rewrite Hq.
  - apply Forall_cons in Hpre as [Hp Hpre]. rewrite Hp. by apply IH.
Qed.

(** X18: [interpolateElevation] returns the elevation of the first point
    that lies within 0.1 of the query position, unchanged: neither the
    points before it nor those after it are weighed in. *)
Theorem first_close_point_wins x z pre q post resolution :
  Forall (fun p => (distanceTo x z p <? 0.1)%float = false) pre ->
  (distanceTo x z q <? 0.1)%float = true ->
  interpolateElevation x z (pre ++ q :: post) resolution = elevation q.
Proof.
  intros Hpre Hq. unfold interpolateElevation.
  destruct (pre ++ q :: post) eqn:E; [by destruct pre|].
  rewrite <- E. by apply weigh_first_close.
Qed.

(** The query at [(2, 3)], a point three cells away and a point on it. *)
Lemma first_close_point_wins_witness :
  interpolateElevation 2 3
    [{| point_x := 5; point_z := 3; elevation := 1800 |};
     {| point_x := 2; point_z := 3; elevation := 2100 |};
     {| point_x := 2; point_z := 3; elevation := 900 |}] 8
  = 2100%float.
Proof.
  apply (first_close_point_wins 2 3
           [{| point_x := 5; point_z := 3; elevation := 1800 |}]
           {| point_x := 2; point_z := 3; elevation := 2100 |}
           [{| point_x := 2; point_z := 3; elevation := 900 |}] 8).
  - repeat constructor.
  - reflexivity.
Defined.

(** A point on the query position is within 0.1 of it. *)
Lemma distanceTo_same x z p :
  isFinite x = true -> isFinite z = true ->
  point_x p = x -> point_z p = z ->
  (distanceTo x z p <? 0.1)%float = true.
Proof.
  intros Hx Hz Ex Ez. unfold distanceTo. rewrite Ex, Ez.
  rewrite (sub_diag x Hx), (sub_diag z Hz). reflexivity.
Qed.

(** Where all points carry the elevation [e] and one of them lies on the
    query position, the result is [e]. *)
Lemma weigh_flat x z e points : forall totalWeight weightedSum,
  isFinite x = true -> isFinite z = true ->
  Forall (fun p => elevation p = e) points ->
  Exists (fun p => point_x p = x /\ point_z p = z) points ->
  weigh x z points totalWeight weightedSum = e.
Proof.
  induction points as [|p points IH]; intros tw ws Hx Hz He Hex.
  - by apply Exists_nil in Hex.
  - apply Forall_cons in He as [Hp He]. cbn [weigh].
    destruct (distanceTo x z p <? 0.1)%float eqn:D; [exact Hp|].
    apply Exists_cons in Hex as [[Ex Ez]|Hex].
    + by rewrite (distanceTo_same x z p Hx Hz Ex Ez) in D.
    + by apply IH.
Qed.

End FurtherInterpolation.

(** ** The USGS grid *)

Section FurtherUSGS.
Import TopographyDataLoader.

Lemma stride_length fuel step limit : forall i,
  1 <= step ->
  length (stride fuel i step limit) * step <= (limit - i) + (step - 1).
Proof.
  induction fuel as [|fuel IH]; intros i Hs; cbn [stride length]; [lia|].
  destruct (i <? limit)%nat eqn:L; cbn [length]; [|lia].
  apply Nat.ltb_lt in L. specialize (IH (i + step) Hs).
  destruct (length (stride fuel (i + step) step limit)) as [|k]; [lia|].
  rewrite Nat.mul_succ_l in IH |- *. rewrite Nat.mul_succ_l. lia.
Qed.

Lemma stride_one fuel limit : forall i,
  limit - i <= fuel -> stride fuel i 1 limit = seq i (limit - i).
Proof.
  induction fuel as [|fuel IH]; intros i Hf; cbn [stride].
  - by replace (limit - i) with 0 by lia.
  - destruct (i <? limit)%nat eqn:L.
    + apply Nat.ltb_lt in L. rewrite IH by lia.
      replace (limit - i) with (S (limit - (i + 1))) by lia. cbn [seq].
      by replace (i + 1) with (S i) by lia.
    + apply Nat.ltb_ge in L. by replace (limit - i) with 0 by lia.
Qed.

Lemma sampled_small resolution :
  (resolution < 40)%Z -> sampled resolution = seq 0 (Z.to_nat resolution).
Proof.
  intros H. unfold sampled, sampleStepOf.
  replace (Z.to_nat (Z.max 1 (resolution / 20))) with 1.
  - rewrite stride_one by lia. by rewrite Nat.sub_0_r.
  - assert (resolution / 20 < 2)%Z by (apply Z.div_lt_upper_bound; lia). lia.
Qed.

Lemma sampled_length resolution : length (sampled resolution) <= 39.
Proof.
  unfold sampled, sampleStepOf.
  set (n := Z.to_nat resolution).
  set (step := Z.to_nat (Z.max 1 (resolution / 20))).
  assert (Hs : 1 <= step) by (unfold step; lia).
  pose proof (stride_length n step n 0 Hs) as H. rewrite Nat.sub_0_r in H.
  destruct (Z.lt_ge_cases resolution 40) as [Hr|Hr].
  - assert (step = 1).
    { unfold step.
      assert (resolution / 20 < 2)%Z by (apply Z.div_lt_upper_bound; lia). lia. }
    unfold n in *. nia.
  - assert (Hk : (2 <= resolution / 20)%Z) by (apply Z.div_le_lower_bound; lia).
    pose proof (Z.mul_succ_div_gt resolution 20 ltac:(lia)) as Hd.
    assert (Hn : n < 20 * step + 20) by (unfold n, step; lia).
    assert (2 <= step) by (unfold step; lia).
    nia.
Qed.


Lemma grid_length {A B} (f : B -> B -> A) (l : list B) : forall l',
  length (flat_map (fun z => map (fun x => f x z) l) l') = length l' * length l.
Proof.
  induction l' as [|z l' IH]; [reflexivity|].
  cbn [flat_map length]. by rewrite length_app, length_map, IH.
Qed.

(** Every query is answered with [0], so every result is a point. *)
Lemma usgs_points env resort resolution areaSize :
  elevationPointsOf (usgsResults env resort resolution areaSize)
  = flat_map (fun z =>
      map (fun x => {| point_x := ofNat x; point_z := ofNat z; elevation := 0 |})
          (sampled resolution))
      (sampled resolution).
Proof.
  unfold usgsResults, elevationPointsOf, queryUSGSElevation. cbn zeta.
  assert (H : forall cols rows,
    omap (fun r => match result_elevation r with
                   | Some e => Some {| point_x := ofNat (result_x r);
                                       point_z := ofNat (result_z r);
                                       elevation := e |}
                   | None => None
                   end)
         (flat_map (fun z =>
            map (fun x => {| result_x := x; result_z := z;
                             result_elevation := Some 0%float |}) cols) rows)
    = flat_map (fun z =>
        map (fun x => {| point_x := ofNat x; point_z := ofNat z; elevation := 0 |})
            cols) rows).
  { intros cols rows. induction rows as [|z rows IH]; [reflexivity|].
    cbn [flat_map]. rewrite omap_app, IH. f_equal. clear IH.
    induction cols as [|x xs IHx]; [reflexivity|].
    cbn. f_equal. exact IHx. }
  apply H.
Qed.

Lemma fillGrid_length n cell data : length (fillGrid n cell data) = length data.
Proof.
  unfold fillGrid. generalize (seq 0 n) at 2. intros rows. revert data.
  induction rows as [|z rows IH]; intros data; [reflexivity|].
  cbn [foldl]. rewrite IH. generalize (seq 0 n). intros xs. revert data.
  induction xs as [|x xs IHx]; intros data; [reflexivity|].
  cbn [foldl]. by rewrite IHx, length_insert.
Qed.

Lemma fillGrid_Forall (P : float -> Prop) n cell data :
  (forall x z, x < n -> z < n -> P (cell x z)) ->
  Forall P data -> Forall P (fillGrid n cell data).
Proof.
  intros Hcell. unfold fillGrid.
  assert (Hrows : Forall (fun z => z < n) (seq 0 n))
    by (apply Forall_forall; intros z Hz; apply elem_of_seq in Hz; lia).
  revert Hrows. generalize (seq 0 n) at 1 3. intros rows Hrows. revert data.
  induction Hrows as [|z rows Hz _ IH]; intros data Hd; [exact Hd|].
  cbn [foldl]. apply IH.
  assert (Hxs : Forall (fun x => x < n) (seq 0 n))
    by (apply Forall_forall; intros x Hx; apply elem_of_seq in Hx; lia).
  revert Hxs. generalize (seq 0 n). intros xs Hxs. revert data Hd.
  induction Hxs as [|x xs Hx _ IHx]; intros data Hd; [exact Hd|].
  cbn [foldl]. apply IHx. apply Forall_insert; [exact Hd | by apply Hcell].
Qed.

Lemma all_equal (v : float) l : Forall (fun u => u = v) l -> l = repeat v (length l).
Proof. induction 1 as [|u l -> _ IH]; [reflexivity|]. cbn. by rewrite <- IH. Qed.

Lemma small_is_finite n : n < 40 -> isFinite (ofNat n) = true.
Proof.
  intros H. do 40 (destruct n as [|n]; [reflexivity|]). lia.
Qed.


(** X20: the two sampling loops make at most 39 queries per axis, 1521 in
    all, whatever the side. *)
Theorem usgs_query_budget env resort resolution areaSize :
  length (usgsResults env resort resolution areaSize) <= 1521.
Proof.
  unfold usgsResults. cbn zeta.
  rewrite (grid_length (fun x z => _) (sampled resolution) (sampled resolution)).
  pose proof (sampled_length resolution). nia.
Qed.

(** X21: for a side from 1 to 39 every cell has a sample of its own, every
    sample is the [0] of the stub, and the grid returned is flat: all
    [0.5]. *)
Theorem usgs_grid_is_flat env resort resolution areaSize :
  (0 < resolution < 40)%Z ->
  fetchUSGSElevationGrid env resort resolution areaSize
  = Some (repeat 0.5%float (Z.to_nat (resolution * resolution))).
Proof.
  intros [Hlo Hhi]. unfold fetchUSGSElevationGrid. cbn zeta.
  rewrite usgs_points, sampled_small by exact Hhi.
  set (n := Z.to_nat resolution).
  assert (Hn : 0 < n < 40) by (unfold n; lia).
  remember (flat_map (fun z => map (fun x =>
              {| point_x := ofNat x; point_z := ofNat z; elevation := 0 |})
              (seq 0 n)) (seq 0 n)) as points eqn:Ep.
  assert (Hflat : Forall (fun p => elevation p = 0%float) points).
  { rewrite Ep. apply Forall_flat_map, Forall_forall. intros z _.
    apply Forall_map, Forall_forall. by intros x _. }
  assert (Hex : forall x z, x < n -> z < n ->
            Exists (fun p => point_x p = ofNat x /\ point_z p = ofNat z) points).
  { intros x z Hx Hz. rewrite Ep. apply Exists_exists.
    exists {| point_x := ofNat x; point_z := ofNat z; elevation := 0 |}.
    split; [|split; reflexivity].
    apply list_elem_of_In, in_flat_map. exists z. split; [apply in_seq; lia|].
    apply in_map_iff. exists x. split; [reflexivity | apply in_seq; lia]. }
  assert (Hne : points <> []).
  { intros E. specialize (Hex 0 0 ltac:(lia) ltac:(lia)). rewrite E in Hex.
    by apply Exists_nil in Hex. }
  assert (Hcell : forall x z, x < n -> z < n ->
            interpolateElevation (ofNat x) (ofNat z) points resolution = 0%float).
  { intros x z Hx Hz.
    replace (interpolateElevation (ofNat x) (ofNat z) points resolution)
      with (weigh (ofNat x) (ofNat z) points 0 0)
      by (unfold interpolateElevation; by destruct points).
    apply weigh_flat; [apply small_is_finite; lia.. | exact Hflat | by apply Hex]. }
  pose proof (fillGrid_Forall (fun u => u = 0%float) n
                (fun x z => interpolateElevation (ofNat x) (ofNat z) points resolution)
                (Float32Array_new (Z.to_nat (resolution * resolution)))
                Hcell) as F.
  apply all_equal in F.
  2:{ unfold Float32Array_new. apply Forall_forall. intros u Hu.
      apply list_elem_of_In, repeat_spec in Hu. exact Hu. }
  rewrite fillGrid_length in F. unfold Float32Array_new in F at 2.
  rewrite repeat_length in F.
  clear Ep Hflat Hex Hcell. destruct points as [|p ps]; [done|].
  rewrite F. f_equal.
  destruct (Z.to_nat (resolution * resolution)) as [|k] eqn:K; [nia|].
  by apply loader_flat.
Qed.

(** Zermatt at side 3. *)
Lemma usgs_grid_is_flat_witness :
  fetchUSGSElevationGrid offline
    {| ref := 2; lat := 46.0207; lon := 7.7491; name := "Zermatt, Switzerland" |}
    3 2000
  = Some (repeat 0.5%float 9).
Proof.
  apply (usgs_grid_is_flat offline
           {| ref := 2; lat := 46.0207; lon := 7.7491; name := "Zermatt, Switzerland" |}
           3 2000).
  lia.
Defined.

End FurtherUSGS.

(** ** The terrain renderer *)

Section FurtherRenderer.
Import TopographyDataLoader.


(** The renderer's table has the keys of the loader's. *)
Lemma renderer_profile resortKey :
  match own resortKey TerrainRenderer.resortProfiles with
  | Some _ => knownResort resortKey = true
  | None => knownResort resortKey = false
  end.
Proof.
  unfold knownResort, TerrainRenderer.resortProfiles, resortCoordinates.
  cbn [own].
  repeat match goal with
         | |- context [String.eqb ?k resortKey] =>
             destruct (String.eqb k resortKey); [reflexivity|]
         end.
  reflexivity.
Qed.



(** X23: for a key that is none of the five resorts (and no name that every
    object inherits) [generateHeightMap] rejects with the [TypeError] of
    reading [name] of [undefined], raised by the log line of its [catch]
    block or, when the loader has the key cached, of its [try] block; the
    renderer, the loader and the page are left as they were, and no terrain
    is generated. *)
Theorem unknown_resort_rejects_with_TypeError env math resortKey r w :
  inherited resortKey = false ->
  knownResort resortKey = false ->
  TerrainRenderer.generateHeightMap env math resortKey (r, w)
  = (Throw TerrainRenderer.undefinedName, (r, w)).
Proof.
  intros _ Hk.
  pose proof (renderer_profile resortKey) as P.
  unfold TerrainRenderer.generateHeightMap. cbn zeta.
  destruct (own resortKey TerrainRenderer.resortProfiles) as [p|]; [congruence|].
  unfold knownResort in Hk.
  destruct (own resortKey resortCoordinates) as [resort|] eqn:Hown; [discriminate|].
  unfold bind at 1. unfold tryCatch. unfold bind at 1.
  unfold TerrainRenderer.onLoader, TerrainRenderer.resolution,
    TerrainRenderer.terrainSize.
  destruct r as [hd l]. cbn [TerrainRenderer.topographyLoader TerrainRenderer.heightData].
  destruct (Map_get (cacheKeyOf resortKey 128 1000) (cache l)) as [grid|] eqn:Hc.
  - rewrite (fetch_hit env resortKey 128 1000 grid l w Hc). reflexivity.
  - rewrite (fetch_unknown env resortKey 128 1000 l w Hc Hown). reflexivity.
Qed.

Lemma unknown_resort_rejects_with_TypeError_witness :
  TerrainRenderer.generateHeightMap offline
    {| TerrainRenderer.Math_exp := fun x => x;
       TerrainRenderer.Math_pow := fun x _ => x |}
    "aspen" (TerrainRenderer.new, World_init)
  = (Throw TerrainRenderer.undefinedName, (TerrainRenderer.new, World_init)).
Proof.
  exact (unknown_resort_rejects_with_TypeError offline
           {| TerrainRenderer.Math_exp := fun x => x;
              TerrainRenderer.Math_pow := fun x _ => x |}
           "aspen" TerrainRenderer.new World_init eq_refl eq_refl).
Defined.

End FurtherRenderer.

(** ** What a miss does to the page *)

Section FurtherEffects.
Import MCPElevationClient TopographyDataLoader.




End FurtherEffects.

(** ** The resources a client lists *)

Section FurtherListing.
Import MCPElevationClient.

(** X16: [initialize()] resolves to [true] from every state of the client
    and sends nothing; every URI it lists is the URI of a grid or of the
    metadata of a resort that [getAvailableResorts()] names and the loader
    knows, and [readResource] parses it back into that type and resort. *)
Theorem listed_resources_are_readable c w :
  exists c',
    initialize (c, w) = (Return true, (c', w))
    /\ isInitialized c' = true
    /\ Forall (fun uri =>
         exists t resortKey,
           uri = resourceUri t resortKey
           /\ matchResource uri = Some (t, resortKey)
           /\ resortKey ∈ getAvailableResorts
           /\ TopographyDataLoader.knownResort resortKey = true)
         (resources c').
Proof.
  destruct c as [init res tbl]. eexists. split; [reflexivity|].
  split; [reflexivity|]. cbn [resources].
  repeat (apply Forall_cons; split;
          [do 2 eexists; split; [|split; [reflexivity|split; [|reflexivity]]];
           [reflexivity | unfold getAvailableResorts; set_solver]|]).
  apply Forall_nil. done.
Qed.

End FurtherListing.

